(** * Photo-Enhancer: the handlers of the [App] component

    A shallow embedding of the event handlers of the two versions of the
    application's [App] component: [src/index.tsx] (module [Index]), which
    has the blur toggle and the API-key selection screen, and
    [src/unnamed/part_000] (module [Part000]), which has neither.

    Conventions.
    - A JavaScript string is a [string] of bytes (UTF-8).
    - [null] and [undefined] are [None].
    - Every [useState] cell is a record field; a handler is a function on the
      record, and the [setX] calls of a handler are applied in source order.
    - An [async] handler is cut at its [await]: the part run by the click
      returns the new state and the request it is about to send, the part
      run when the call settles takes the outcome of the call and the state
      of that moment.  Both parts read the render's own variables, so the
      request text is computed from the state of the click. *)

From Stdlib Require Import String Ascii List Bool NArith Lia Permutation.
From Stdlib Require Import DecimalString.
Import ListNotations.
Open Scope string_scope.

Set Implicit Arguments.

Notation "s |> f" := (f s) (at level 45, left associativity, only parsing).

(** ** JavaScript string primitives used by the handlers *)

Module JS.

(** The double-quote character (code 34). *)
Definition dquote : string := String (ascii_of_nat 34) EmptyString.

(** [!s] for a string: only the empty string is falsy. *)
Definition falsy (s : string) : bool :=
  match s with
  | EmptyString => true
  | String _ _ => false
  end.

(** [a || b] where [a] is a string or [undefined]. *)
Definition or_else (a : option string) (b : string) : string :=
  match a with
  | Some s => if falsy s then b else s
  | None => b
  end.

(** [`${a}`] where [a] is a string or [undefined]. *)
Definition interp (a : option string) : string :=
  match a with
  | Some s => s
  | None => "undefined"
  end.

(** [`${n}`] for a non-negative integer. *)
Definition interpN (n : N) : string := NilEmpty.string_of_uint (N.to_uint n).

(** [s.startsWith(p)]. *)
Fixpoint startsWith (s p : string) {struct p} : bool :=
  match p with
  | EmptyString => true
  | String a p' =>
      match s with
      | EmptyString => false
      | String b s' => Ascii.eqb a b && startsWith s' p'
      end
  end.

(** [s.includes(needle)]: [needle] occurs at some position of [s]. *)
Fixpoint includes (s needle : string) {struct s} : bool :=
  startsWith s needle ||
  match s with
  | EmptyString => false
  | String _ s' => includes s' needle
  end.

Definition byte (n : N) (c : ascii) : bool := N.eqb (N_of_ascii c) n.

(** ECMAScript WhiteSpace and LineTerminator code points, as UTF-8:
    one byte (TAB, LF, VT, FF, CR, SP), two bytes (U+00A0), three bytes
    (U+1680, U+2000..U+200A, U+2028, U+2029, U+202F, U+205F, U+3000,
    U+FEFF). *)
Definition ws1 (c : ascii) : bool :=
  byte 9 c || byte 10 c || byte 11 c || byte 12 c || byte 13 c || byte 32 c.

Definition ws2 (c1 c2 : ascii) : bool := byte 0xC2 c1 && byte 0xA0 c2.

Definition ws3 (c1 c2 c3 : ascii) : bool :=
  (byte 0xE1 c1 && byte 0x9A c2 && byte 0x80 c3)
  || (byte 0xE2 c1 && byte 0x80 c2
      && ((N.leb 0x80 (N_of_ascii c3) && N.leb (N_of_ascii c3) 0x8A)
          || byte 0xA8 c3 || byte 0xA9 c3 || byte 0xAF c3))
  || (byte 0xE2 c1 && byte 0x81 c2 && byte 0x9F c3)
  || (byte 0xE3 c1 && byte 0x80 c2 && byte 0x80 c3)
  || (byte 0xEF c1 && byte 0xBB c2 && byte 0xBF c3).

(** Drop the white space at the head of a byte list; [fwd] tells whether
    the list is in reading order or reversed. *)
Fixpoint dropWs (fwd : bool) (l : list ascii) : list ascii :=
  match l with
  | [] => []
  | c1 :: r1 =>
      if ws1 c1 then dropWs fwd r1 else
      match r1 with
      | [] => l
      | c2 :: r2 =>
          if (if fwd then ws2 c1 c2 else ws2 c2 c1) then dropWs fwd r2 else
          match r2 with
          | [] => l
          | c3 :: r3 =>
              if (if fwd then ws3 c1 c2 c3 else ws3 c3 c2 c1)
              then dropWs fwd r3 else l
          end
      end
  end.

(** [s.trim()]. *)
Definition trim (s : string) : string :=
  string_of_list_ascii
    (rev (dropWs false (rev (dropWs true (list_ascii_of_string s))))).

End JS.

(** ** Values exchanged with the browser and the model service *)

(** A [File]: only the fields the handlers read, and its name. *)
Record File := mkFile { name : string; type : string; size : N }.

(** The [@google/genai] response, as far as the handlers inspect it. *)
Record Blob := mkBlob { data : option string; mimeType : option string }.
Record Part := mkPart { inlineData : option Blob; part_text : option string }.
Record Content := mkContent { parts : option (list Part) }.
Record Candidate := mkCandidate { content : option Content }.
Record GenerateContentResponse := mkResponse {
  candidates : option (list Candidate);
  text : option string   (* the value of the [response.text] accessor *)
}.

(** A thrown value: its [message] property and [String(e)]. *)
Record Thrown := mkThrown { message : option string; asString : string }.

(** [new Error(msg)]. *)
Definition newError (msg : string) : Thrown :=
  {| message := Some msg; asString := "Error: " ++ msg |}.

(** How the [try] block of a request handler goes on after the click: the
    call returns a response, or something is thrown (by the client
    constructor, by the encoding of the file or by the call). *)
Inductive Outcome :=
| Returned (response : GenerateContentResponse)
| Threw (e : Thrown).

(** What a request handler hands to [ai.models.generateContent]. *)
Record Request := mkRequest {
  model : string;
  image : File;
  instruction : string
}.

(** [response.candidates?.[0]?.content?.parts], with [Array.isArray]. *)
Definition response_parts (response : GenerateContentResponse)
  : option (list Part) :=
  match candidates response with
  | Some (c :: _) =>
      match content c with
      | Some ct => parts ct
      | None => None
      end
  | _ => None
  end.

(** [data:${mimeType};base64,${base64Image}]. *)
Definition dataUrl (mime base64 : option string) : string :=
  "data:" ++ JS.interp mime ++ ";base64," ++ JS.interp base64.

(** The message of the error thrown when no part carries an image. *)
Definition noImageMessage (response : GenerateContentResponse) : string :=
  let textResponse :=
    JS.or_else (option_map JS.trim (text response)) "No text response." in
  "The AI did not return an image. Response: " ++ JS.dquote
    ++ textResponse ++ JS.dquote.

Definition MAX_FILE_SIZE_MB : N := 10.
Definition MAX_FILE_SIZE_BYTES : N := MAX_FILE_SIZE_MB * 1024 * 1024.

Definition invalidTypeText : string :=
  "Please upload a valid image file (JPG, PNG, WEBP).".
Definition tooLargeText : string :=
  "File size exceeds the " ++ JS.interpN MAX_FILE_SIZE_MB ++ "MB limit.".

(** ** The instruction fragments of [handleEnhanceClick]

    The literals appended to [finalPrompt]; the restoration and face
    literals are the same in both files, the blur literal is in
    [src/index.tsx] only. *)

Definition upscaleFragment (upscaleFactor : string) : string :=
  " Increase the resolution of the image by " ++ upscaleFactor
    ++ " while keeping details sharp and natural.".

Definition deblurFragment : string :=
  " This is a high-priority instruction: Remove all types of blur from the image, including motion blur, focus blur, and camera shake. The final image must be exceptionally sharp and clear, with all details brought into crisp focus.".

Definition restoreFragment : string :=
  " Perform an expert-level, full restoration of this photograph. This is a high-priority instruction. Your task is to meticulously repair all signs of damage and degradation.
1. **Fix Physical Damage:** Completely remove all scratches, tears, creases, stains, and water damage.
2. **Correct Blur & Sharpness:** This is critical. Analyze the image for any blurriness (motion blur, out-of-focus areas) and apply advanced sharpening techniques to bring all details into sharp, clear focus.
3. **Remove Noise & Artifacts:** Eliminate all digital noise, film grain, and compression artifacts (like JPEG blocking).
4. **Restore Colors:** Correct any color fading, yellowing, or discoloration. Restore the original, vibrant, and accurate colors.
5. **Final Output:** The result must be a clean, sharp, fully restored image that looks like it was captured with a modern, high-resolution digital camera. Do not leave any original flaws.".

Definition faceFragment : string :=
  " Generate an ultra-realistic face. Focus on hyper-detailed skin texture, including pores and fine lines. Create lifelike eyes with natural depth and reflections. Render individual hair and eyebrow strands with sharp precision. The result should be indistinguishable from a high-resolution photograph.".

(** [activeMode]. *)
Inductive Mode := enhancer | remover.

(** ** [src/index.tsx] *)

Module Index.

Definition DEFAULT_PROMPT : string :=
  "Improve image quality, lighting, sharpness, color, and details without making it look artificial. Enhance the photo to make it look its best while maintaining a natural appearance.".

(** The cells under the comment [Enhancer State]. *)
Record Enhancer := mkEnhancer {
  originalImage : option string;
  imageFile : option File;
  enhancedImage : option string;
  prompt : string;
  isLoading : bool;
  error : option string;
  isFaceEnhancementEnabled : bool;
  isRestoreEnabled : bool;
  isDeblurEnabled : bool;
  upscaleFactor : string
}.

(** The cells under the comment [Background Remover State]. *)
Record Remover := mkRemover {
  bgOriginalImage : option string;
  bgImageFile : option File;
  bgRemovedImage : option string;
  bgIsLoading : bool;
  bgError : option string
}.

(** All the state of [App]; [fileInputValue] is the value of the element
    behind [fileInputRef], [None] while no file input is mounted. *)
Record App := mkApp {
  apiKeyReady : bool;
  showLanding : bool;
  activeMode : Mode;
  enhancerState : Enhancer;
  removerState : Remover;
  fileInputValue : option string
}.

Definition initialEnhancer : Enhancer :=
  {| originalImage := None; imageFile := None; enhancedImage := None;
     prompt := DEFAULT_PROMPT; isLoading := false; error := None;
     isFaceEnhancementEnabled := false; isRestoreEnabled := false;
     isDeblurEnabled := false; upscaleFactor := "none" |}.

Definition initialRemover : Remover :=
  {| bgOriginalImage := None; bgImageFile := None; bgRemovedImage := None;
     bgIsLoading := false; bgError := None |}.

Definition initialApp : App :=
  {| apiKeyReady := false; showLanding := true; activeMode := enhancer;
     enhancerState := initialEnhancer; removerState := initialRemover;
     fileInputValue := None |}.

Definition onEnhancer (f : Enhancer -> Enhancer) (s : App) : App :=
  {| apiKeyReady := apiKeyReady s; showLanding := showLanding s;
     activeMode := activeMode s; enhancerState := f (enhancerState s);
     removerState := removerState s; fileInputValue := fileInputValue s |}.

Definition onRemover (f : Remover -> Remover) (s : App) : App :=
  {| apiKeyReady := apiKeyReady s; showLanding := showLanding s;
     activeMode := activeMode s; enhancerState := enhancerState s;
     removerState := f (removerState s); fileInputValue := fileInputValue s |}.

Definition setApiKeyReady (v : bool) (s : App) : App :=
  {| apiKeyReady := v; showLanding := showLanding s;
     activeMode := activeMode s; enhancerState := enhancerState s;
     removerState := removerState s; fileInputValue := fileInputValue s |}.

(** [if (fileInputRef.current) fileInputRef.current.value = ...]. *)
Definition clearFileInput (s : App) : App :=
  {| apiKeyReady := apiKeyReady s; showLanding := showLanding s;
     activeMode := activeMode s; enhancerState := enhancerState s;
     removerState := removerState s;
     fileInputValue := match fileInputValue s with
                       | Some _ => Some EmptyString
                       | None => None
                       end |}.

Definition setOriginalImage (v : option string) : App -> App :=
  onEnhancer (fun e =>
    mkEnhancer v (imageFile e) (enhancedImage e) (prompt e) (isLoading e)
      (error e) (isFaceEnhancementEnabled e) (isRestoreEnabled e)
      (isDeblurEnabled e) (upscaleFactor e)).
Definition setImageFile (v : option File) : App -> App :=
  onEnhancer (fun e =>
    mkEnhancer (originalImage e) v (enhancedImage e) (prompt e) (isLoading e)
      (error e) (isFaceEnhancementEnabled e) (isRestoreEnabled e)
      (isDeblurEnabled e) (upscaleFactor e)).
Definition setEnhancedImage (v : option string) : App -> App :=
  onEnhancer (fun e =>
    mkEnhancer (originalImage e) (imageFile e) v (prompt e) (isLoading e)
      (error e) (isFaceEnhancementEnabled e) (isRestoreEnabled e)
      (isDeblurEnabled e) (upscaleFactor e)).
Definition setPrompt (v : string) : App -> App :=
  onEnhancer (fun e =>
    mkEnhancer (originalImage e) (imageFile e) (enhancedImage e) v
      (isLoading e) (error e) (isFaceEnhancementEnabled e)
      (isRestoreEnabled e) (isDeblurEnabled e) (upscaleFactor e)).
Definition setIsLoading (v : bool) : App -> App :=
  onEnhancer (fun e =>
    mkEnhancer (originalImage e) (imageFile e) (enhancedImage e) (prompt e)
      v (error e) (isFaceEnhancementEnabled e) (isRestoreEnabled e)
      (isDeblurEnabled e) (upscaleFactor e)).
Definition setError (v : option string) : App -> App :=
  onEnhancer (fun e =>
    mkEnhancer (originalImage e) (imageFile e) (enhancedImage e) (prompt e)
      (isLoading e) v (isFaceEnhancementEnabled e) (isRestoreEnabled e)
      (isDeblurEnabled e) (upscaleFactor e)).
Definition setIsFaceEnhancementEnabled (v : bool) : App -> App :=
  onEnhancer (fun e =>
    mkEnhancer (originalImage e) (imageFile e) (enhancedImage e) (prompt e)
      (isLoading e) (error e) v (isRestoreEnabled e) (isDeblurEnabled e)
      (upscaleFactor e)).
Definition setIsRestoreEnabled (v : bool) : App -> App :=
  onEnhancer (fun e =>
    mkEnhancer (originalImage e) (imageFile e) (enhancedImage e) (prompt e)
      (isLoading e) (error e) (isFaceEnhancementEnabled e) v
      (isDeblurEnabled e) (upscaleFactor e)).
Definition setIsDeblurEnabled (v : bool) : App -> App :=
  onEnhancer (fun e =>
    mkEnhancer (originalImage e) (imageFile e) (enhancedImage e) (prompt e)
      (isLoading e) (error e) (isFaceEnhancementEnabled e)
      (isRestoreEnabled e) v (upscaleFactor e)).
Definition setUpscaleFactor (v : string) : App -> App :=
  onEnhancer (fun e =>
    mkEnhancer (originalImage e) (imageFile e) (enhancedImage e) (prompt e)
      (isLoading e) (error e) (isFaceEnhancementEnabled e)
      (isRestoreEnabled e) (isDeblurEnabled e) v).

Definition setBgOriginalImage (v : option string) : App -> App :=
  onRemover (fun r =>
    mkRemover v (bgImageFile r) (bgRemovedImage r) (bgIsLoading r)
      (bgError r)).
Definition setBgImageFile (v : option File) : App -> App :=
  onRemover (fun r =>
    mkRemover (bgOriginalImage r) v (bgRemovedImage r) (bgIsLoading r)
      (bgError r)).
Definition setBgRemovedImage (v : option string) : App -> App :=
  onRemover (fun r =>
    mkRemover (bgOriginalImage r) (bgImageFile r) v (bgIsLoading r)
      (bgError r)).
Definition setBgIsLoading (v : bool) : App -> App :=
  onRemover (fun r =>
    mkRemover (bgOriginalImage r) (bgImageFile r) (bgRemovedImage r) v
      (bgError r)).
Definition setBgError (v : option string) : App -> App :=
  onRemover (fun r =>
    mkRemover (bgOriginalImage r) (bgImageFile r) (bgRemovedImage r)
      (bgIsLoading r) v).

(** *** Enhancer handlers *)

(** [handleImageUpload], up to [reader.readAsDataURL(file)]: the new state
    and the file handed to the reader, if any. *)
Definition handleImageUpload (file : option File) (s : App)
  : App * option File :=
  match file with
  | None => (s, None)
  | Some f =>
      if negb (JS.startsWith (type f) "image/") then
        (s |> setError (Some invalidTypeText), None)
      else if (MAX_FILE_SIZE_BYTES <? size f)%N then
        (s |> setError (Some tooLargeText), None)
      else
        (s |> setImageFile (Some f), Some f)
  end.

(** The [reader.onloadend] callback of [handleImageUpload]; [result] is
    [reader.result]. *)
Definition handleImageUpload_onloadend (result : option string) (s : App)
  : App :=
  s |> setOriginalImage result
    |> setEnhancedImage None
    |> setError None
    |> setPrompt DEFAULT_PROMPT
    |> setIsFaceEnhancementEnabled false
    |> setIsRestoreEnabled false
    |> setIsDeblurEnabled false
    |> setUpscaleFactor "none".

(** An upload whose read ends before any other event. *)
Definition ingest (file : option File) (result : option string) (s : App)
  : App :=
  match handleImageUpload file s with
  | (s1, Some _) => handleImageUpload_onloadend result s1
  | (s1, None) => s1
  end.

(** The local [finalPrompt] of [handleEnhanceClick], after the four
    conditional [+=]. *)
Definition finalPrompt (e : Enhancer) : string :=
  let finalPrompt := prompt e in
  let finalPrompt :=
    if negb (upscaleFactor e =? "none") then
      finalPrompt ++ upscaleFragment (upscaleFactor e)
    else finalPrompt in
  let finalPrompt :=
    if isDeblurEnabled e then
      finalPrompt ++ deblurFragment
    else finalPrompt in
  let finalPrompt :=
    if isRestoreEnabled e then
      finalPrompt ++ restoreFragment
    else finalPrompt in
  let finalPrompt :=
    if isFaceEnhancementEnabled e then
      finalPrompt ++ faceFragment
    else finalPrompt in
  finalPrompt.

(** [handleEnhanceClick] up to the [await] of [generateContent]: the new
    state and the request of the [try] block, [None] when the guard
    returns. *)
Definition handleEnhanceClick (s : App) : App * option Request :=
  match imageFile (enhancerState s) with
  | None => (s, None)
  | Some f =>
      if JS.falsy (prompt (enhancerState s)) then (s, None)
      else
        (s |> setIsLoading true |> setError None |> setEnhancedImage None,
         Some {| model := "gemini-2.5-flash-image"; image := f;
                 instruction := finalPrompt (enhancerState s) |})
  end.

(** The [for (const part of parts)] loop of [handleEnhanceClick]: the
    state and [foundImage]. *)
Fixpoint enhanceParts (ps : list Part) (s : App) : App * bool :=
  match ps with
  | [] => (s, false)
  | part :: rest =>
      match inlineData part with
      | Some blob =>
          (s |> setEnhancedImage
                  (Some (dataUrl (mimeType blob) (data blob))), true)
      | None => enhanceParts rest s
      end
  end.

Definition credentialText : string :=
  "Your API Key is not valid or has been revoked. Please select a new key to continue.".

(** [errorMessage] of the [catch] blocks. *)
Definition errorMessage (e : Thrown) : string :=
  JS.or_else (message e) (asString e).

Definition isCredentialError (msg : string) : bool :=
  JS.includes msg "API Key must be set"
  || JS.includes msg "Requested entity was not found".

(** The [catch] block of [handleEnhanceClick]. *)
Definition handleEnhanceClick_catch (e : Thrown) (s : App) : App :=
  if isCredentialError (errorMessage e) then
    s |> setError (Some credentialText) |> setApiKeyReady false
  else
    s |> setError
           (Some ("An error occurred during enhancement: " ++ errorMessage e)).

(** [handleEnhanceClick] from the [await] on: response scan, [throw],
    [catch] and [finally]. *)
Definition handleEnhanceClick_settle (o : Outcome) (s : App) : App :=
  let '(s1, thrown) :=
    match o with
    | Threw e => (s, Some e)
    | Returned response =>
        let '(s', foundImage) :=
          match response_parts response with
          | Some ps => enhanceParts ps s
          | None => (s, false)
          end in
        if foundImage then (s', None)
        else (s', Some (newError (noImageMessage response)))
    end in
  let s2 :=
    match thrown with
    | Some e => handleEnhanceClick_catch e s1
    | None => s1
    end in
  s2 |> setIsLoading false.

(** A click whose call settles before any other event. *)
Definition enhance (o : Outcome) (s : App) : App :=
  match handleEnhanceClick s with
  | (s1, Some _) => handleEnhanceClick_settle o s1
  | (s1, None) => s1
  end.

Definition handleReset (s : App) : App :=
  s |> setOriginalImage None
    |> setImageFile None
    |> setEnhancedImage None
    |> setError None
    |> setIsLoading false
    |> setPrompt DEFAULT_PROMPT
    |> setIsFaceEnhancementEnabled false
    |> setIsRestoreEnabled false
    |> setIsDeblurEnabled false
    |> setUpscaleFactor "none"
    |> clearFileInput.

(** *** Background remover handlers *)

Definition handleBgImageUpload (file : option File) (s : App)
  : App * option File :=
  match file with
  | None => (s, None)
  | Some f =>
      if negb (JS.startsWith (type f) "image/") then
        (s |> setBgError (Some invalidTypeText), None)
      else if (MAX_FILE_SIZE_BYTES <? size f)%N then
        (s |> setBgError (Some tooLargeText), None)
      else
        (s |> setBgImageFile (Some f), Some f)
  end.

Definition handleBgImageUpload_onloadend (result : option string) (s : App)
  : App :=
  s |> setBgOriginalImage result
    |> setBgRemovedImage None
    |> setBgError None.

Definition bgRemovePrompt : string :=
  "CRITICAL TASK: Your only job is to remove the background from this image. The main subject must be perfectly isolated with clean edges. The output format MUST be a PNG with a fully transparent (alpha) background. Do not output any other format or any background color.".

Definition handleRemoveBackgroundClick (s : App) : App * option Request :=
  match bgImageFile (removerState s) with
  | None => (s, None)
  | Some f =>
      (s |> setBgIsLoading true |> setBgError None |> setBgRemovedImage None,
       Some {| model := "gemini-2.5-flash-image"; image := f;
               instruction := bgRemovePrompt |})
  end.

(** The loop of [handleRemoveBackgroundClick]; the media type is the
    constant of the source, not the one of the part. *)
Fixpoint removeParts (ps : list Part) (s : App) : App * bool :=
  match ps with
  | [] => (s, false)
  | part :: rest =>
      match inlineData part with
      | Some blob =>
          let mimeType := Some "image/png" in
          (s |> setBgRemovedImage (Some (dataUrl mimeType (data blob))),
           true)
      | None => removeParts rest s
      end
  end.

Definition handleRemoveBackgroundClick_catch (e : Thrown) (s : App) : App :=
  if isCredentialError (errorMessage e) then
    s |> setBgError (Some credentialText) |> setApiKeyReady false
  else
    s |> setBgError (Some ("An error occurred: " ++ errorMessage e)).

Definition handleRemoveBackgroundClick_settle (o : Outcome) (s : App)
  : App :=
  let '(s1, thrown) :=
    match o with
    | Threw e => (s, Some e)
    | Returned response =>
        let '(s', foundImage) :=
          match response_parts response with
          | Some ps => removeParts ps s
          | None => (s, false)
          end in
        if foundImage then (s', None)
        else (s', Some (newError (noImageMessage response)))
    end in
  let s2 :=
    match thrown with
    | Some e => handleRemoveBackgroundClick_catch e s1
    | None => s1
    end in
  s2 |> setBgIsLoading false.

Definition removeBackground (o : Outcome) (s : App) : App :=
  match handleRemoveBackgroundClick s with
  | (s1, Some _) => handleRemoveBackgroundClick_settle o s1
  | (s1, None) => s1
  end.

Definition handleBgReset (s : App) : App :=
  s |> setBgOriginalImage None
    |> setBgImageFile None
    |> setBgRemovedImage None
    |> setBgError None
    |> setBgIsLoading false
    |> clearFileInput.

(** *** The controls of [EditorComponent] *)

Definition upscaleOptions : list string :=
  ["none"; "2x"; "4x"; "8x"; "16x"; "32x"].

(** One use of a control: the three check boxes, an upscale button, the
    prompt text area. *)
Inductive Control :=
| FaceEnhanceToggle (checked : bool)
| RestoreImageToggle (checked : bool)
| DeblurImageToggle (checked : bool)
| UpscaleButton (factor : string)
| PromptInput (value : string).

Definition onControl (s : App) (c : Control) : App :=
  match c with
  | FaceEnhanceToggle checked => s |> setIsFaceEnhancementEnabled checked
  | RestoreImageToggle checked => s |> setIsRestoreEnabled checked
  | DeblurImageToggle checked => s |> setIsDeblurEnabled checked
  | UpscaleButton factor => s |> setUpscaleFactor factor
  | PromptInput value => s |> setPrompt value
  end.

(** *** What [App] renders *)

Inductive Screen := ApiKeySelector | LandingPage | Main.

(** The two early [return]s of [App] before the main view. *)
Definition render (s : App) : Screen :=
  if negb (apiKeyReady s) then ApiKeySelector
  else if showLanding s then LandingPage
  else Main.

End Index.

(** ** [src/unnamed/part_000] *)

Module Part000.

Definition DEFAULT_PROMPT : string :=
  "Improve image quality, lighting, sharpness, color, and details without making it look artificial. Enhance the photo to make it look its best while maintaining a natural appearance.".

(** The cells under the comment [Enhancer State]. *)
Record Enhancer := mkEnhancer {
  originalImage : option string;
  imageFile : option File;
  enhancedImage : option string;
  prompt : string;
  isLoading : bool;
  error : option string;
  isFaceEnhancementEnabled : bool;
  isRestoreEnabled : bool;
  upscaleFactor : string
}.

(** The cells under the comment [Background Remover State]. *)
Record Remover := mkRemover {
  bgOriginalImage : option string;
  bgImageFile : option File;
  bgRemovedImage : option string;
  bgIsLoading : bool;
  bgError : option string
}.

Record App := mkApp {
  activeMode : Mode;
  enhancerState : Enhancer;
  removerState : Remover;
  fileInputValue : option string
}.

Definition initialEnhancer : Enhancer :=
  {| originalImage := None; imageFile := None; enhancedImage := None;
     prompt := DEFAULT_PROMPT; isLoading := false; error := None;
     isFaceEnhancementEnabled := false; isRestoreEnabled := false;
     upscaleFactor := "none" |}.

Definition initialRemover : Remover :=
  {| bgOriginalImage := None; bgImageFile := None; bgRemovedImage := None;
     bgIsLoading := false; bgError := None |}.

Definition initialApp : App :=
  {| activeMode := enhancer; enhancerState := initialEnhancer;
     removerState := initialRemover; fileInputValue := None |}.

Definition onEnhancer (f : Enhancer -> Enhancer) (s : App) : App :=
  {| activeMode := activeMode s; enhancerState := f (enhancerState s);
     removerState := removerState s; fileInputValue := fileInputValue s |}.

Definition onRemover (f : Remover -> Remover) (s : App) : App :=
  {| activeMode := activeMode s; enhancerState := enhancerState s;
     removerState := f (removerState s); fileInputValue := fileInputValue s |}.

Definition clearFileInput (s : App) : App :=
  {| activeMode := activeMode s; enhancerState := enhancerState s;
     removerState := removerState s;
     fileInputValue := match fileInputValue s with
                       | Some _ => Some EmptyString
                       | None => None
                       end |}.

Definition setOriginalImage (v : option string) : App -> App :=
  onEnhancer (fun e =>
    mkEnhancer v (imageFile e) (enhancedImage e) (prompt e) (isLoading e)
      (error e) (isFaceEnhancementEnabled e) (isRestoreEnabled e)
      (upscaleFactor e)).
Definition setImageFile (v : option File) : App -> App :=
  onEnhancer (fun e =>
    mkEnhancer (originalImage e) v (enhancedImage e) (prompt e) (isLoading e)
      (error e) (isFaceEnhancementEnabled e) (isRestoreEnabled e)
      (upscaleFactor e)).
Definition setEnhancedImage (v : option string) : App -> App :=
  onEnhancer (fun e =>
    mkEnhancer (originalImage e) (imageFile e) v (prompt e) (isLoading e)
      (error e) (isFaceEnhancementEnabled e) (isRestoreEnabled e)
      (upscaleFactor e)).
Definition setPrompt (v : string) : App -> App :=
  onEnhancer (fun e =>
    mkEnhancer (originalImage e) (imageFile e) (enhancedImage e) v
      (isLoading e) (error e) (isFaceEnhancementEnabled e)
      (isRestoreEnabled e) (upscaleFactor e)).
Definition setIsLoading (v : bool) : App -> App :=
  onEnhancer (fun e =>
    mkEnhancer (originalImage e) (imageFile e) (enhancedImage e) (prompt e)
      v (error e) (isFaceEnhancementEnabled e) (isRestoreEnabled e)
      (upscaleFactor e)).
Definition setError (v : option string) : App -> App :=
  onEnhancer (fun e =>
    mkEnhancer (originalImage e) (imageFile e) (enhancedImage e) (prompt e)
      (isLoading e) v (isFaceEnhancementEnabled e) (isRestoreEnabled e)
      (upscaleFactor e)).
Definition setIsFaceEnhancementEnabled (v : bool) : App -> App :=
  onEnhancer (fun e =>
    mkEnhancer (originalImage e) (imageFile e) (enhancedImage e) (prompt e)
      (isLoading e) (error e) v (isRestoreEnabled e) (upscaleFactor e)).
Definition setIsRestoreEnabled (v : bool) : App -> App :=
  onEnhancer (fun e =>
    mkEnhancer (originalImage e) (imageFile e) (enhancedImage e) (prompt e)
      (isLoading e) (error e) (isFaceEnhancementEnabled e) v
      (upscaleFactor e)).
Definition setUpscaleFactor (v : string) : App -> App :=
  onEnhancer (fun e =>
    mkEnhancer (originalImage e) (imageFile e) (enhancedImage e) (prompt e)
      (isLoading e) (error e) (isFaceEnhancementEnabled e)
      (isRestoreEnabled e) v).

Definition setBgOriginalImage (v : option string) : App -> App :=
  onRemover (fun r =>
    mkRemover v (bgImageFile r) (bgRemovedImage r) (bgIsLoading r)
      (bgError r)).
Definition setBgImageFile (v : option File) : App -> App :=
  onRemover (fun r =>
    mkRemover (bgOriginalImage r) v (bgRemovedImage r) (bgIsLoading r)
      (bgError r)).
Definition setBgRemovedImage (v : option string) : App -> App :=
  onRemover (fun r =>
    mkRemover (bgOriginalImage r) (bgImageFile r) v (bgIsLoading r)
      (bgError r)).
Definition setBgIsLoading (v : bool) : App -> App :=
  onRemover (fun r =>
    mkRemover (bgOriginalImage r) (bgImageFile r) (bgRemovedImage r) v
      (bgError r)).
Definition setBgError (v : option string) : App -> App :=
  onRemover (fun r =>
    mkRemover (bgOriginalImage r) (bgImageFile r) (bgRemovedImage r)
      (bgIsLoading r) v).

(** *** Enhancer handlers *)

Definition handleImageUpload (file : option File) (s : App)
  : App * option File :=
  match file with
  | None => (s, None)
  | Some f =>
      if negb (JS.startsWith (type f) "image/") then
        (s |> setError (Some invalidTypeText), None)
      else if (MAX_FILE_SIZE_BYTES <? size f)%N then
        (s |> setError (Some tooLargeText), None)
      else
        (s |> setImageFile (Some f), Some f)
  end.

Definition handleImageUpload_onloadend (result : option string) (s : App)
  : App :=
  s |> setOriginalImage result
    |> setEnhancedImage None
    |> setError None
    |> setPrompt DEFAULT_PROMPT
    |> setIsFaceEnhancementEnabled false
    |> setIsRestoreEnabled false
    |> setUpscaleFactor "none".

(** An upload whose read ends before any other event. *)
Definition ingest (file : option File) (result : option string) (s : App)
  : App :=
  match handleImageUpload file s with
  | (s1, Some _) => handleImageUpload_onloadend result s1
  | (s1, None) => s1
  end.

(** The local [finalPrompt] of [handleEnhanceClick], after the three
    conditional [+=]. *)
Definition finalPrompt (e : Enhancer) : string :=
  let finalPrompt := prompt e in
  let finalPrompt :=
    if negb (upscaleFactor e =? "none") then
      finalPrompt ++ upscaleFragment (upscaleFactor e)
    else finalPrompt in
  let finalPrompt :=
    if isRestoreEnabled e then
      finalPrompt ++ restoreFragment
    else finalPrompt in
  let finalPrompt :=
    if isFaceEnhancementEnabled e then
      finalPrompt ++ faceFragment
    else finalPrompt in
  finalPrompt.

Definition handleEnhanceClick (s : App) : App * option Request :=
  match imageFile (enhancerState s) with
  | None => (s, None)
  | Some f =>
      if JS.falsy (prompt (enhancerState s)) then (s, None)
      else
        (s |> setIsLoading true |> setError None |> setEnhancedImage None,
         Some {| model := "gemini-2.5-flash-image"; image := f;
                 instruction := finalPrompt (enhancerState s) |})
  end.

Fixpoint enhanceParts (ps : list Part) (s : App) : App * bool :=
  match ps with
  | [] => (s, false)
  | part :: rest =>
      match inlineData part with
      | Some blob =>
          (s |> setEnhancedImage
                  (Some (dataUrl (mimeType blob) (data blob))), true)
      | None => enhanceParts rest s
      end
  end.

(** The [catch] block of [handleEnhanceClick]: the message is
    interpolated as it is. *)
Definition handleEnhanceClick_catch (e : Thrown) (s : App) : App :=
  s |> setError
         (Some ("An error occurred during enhancement: "
                  ++ JS.interp (message e))).

Definition handleEnhanceClick_settle (o : Outcome) (s : App) : App :=
  let '(s1, thrown) :=
    match o with
    | Threw e => (s, Some e)
    | Returned response =>
        let '(s', foundImage) :=
          match response_parts response with
          | Some ps => enhanceParts ps s
          | None => (s, false)
          end in
        if foundImage then (s', None)
        else (s', Some (newError (noImageMessage response)))
    end in
  let s2 :=
    match thrown with
    | Some e => handleEnhanceClick_catch e s1
    | None => s1
    end in
  s2 |> setIsLoading false.

Definition enhance (o : Outcome) (s : App) : App :=
  match handleEnhanceClick s with
  | (s1, Some _) => handleEnhanceClick_settle o s1
  | (s1, None) => s1
  end.

Definition handleReset (s : App) : App :=
  s |> setOriginalImage None
    |> setImageFile None
    |> setEnhancedImage None
    |> setError None
    |> setIsLoading false
    |> setPrompt DEFAULT_PROMPT
    |> setIsFaceEnhancementEnabled false
    |> setIsRestoreEnabled false
    |> setUpscaleFactor "none"
    |> clearFileInput.

(** *** Background remover handlers *)

Definition handleBgImageUpload (file : option File) (s : App)
  : App * option File :=
  match file with
  | None => (s, None)
  | Some f =>
      if negb (JS.startsWith (type f) "image/") then
        (s |> setBgError (Some invalidTypeText), None)
      else if (MAX_FILE_SIZE_BYTES <? size f)%N then
        (s |> setBgError (Some tooLargeText), None)
      else
        (s |> setBgImageFile (Some f), Some f)
  end.

Definition handleBgImageUpload_onloadend (result : option string) (s : App)
  : App :=
  s |> setBgOriginalImage result
    |> setBgRemovedImage None
    |> setBgError None.

Definition bgRemovePrompt : string :=
  "Your task is to perfectly and accurately remove the background of the provided image. Isolate the main subject with clean, precise edges. The only output should be an image. The output image format MUST be PNG, and its background MUST be transparent. Do not return any other format or a solid background.".

Definition handleRemoveBackgroundClick (s : App) : App * option Request :=
  match bgImageFile (removerState s) with
  | None => (s, None)
  | Some f =>
      (s |> setBgIsLoading true |> setBgError None |> setBgRemovedImage None,
       Some {| model := "gemini-2.5-flash-image"; image := f;
               instruction := bgRemovePrompt |})
  end.

(** The loop of [handleRemoveBackgroundClick]; the media type is the one
    of the part. *)
Fixpoint removeParts (ps : list Part) (s : App) : App * bool :=
  match ps with
  | [] => (s, false)
  | part :: rest =>
      match inlineData part with
      | Some blob =>
          (s |> setBgRemovedImage
                  (Some (dataUrl (mimeType blob) (data blob))), true)
      | None => removeParts rest s
      end
  end.

Definition handleRemoveBackgroundClick_catch (e : Thrown) (s : App) : App :=
  s |> setBgError (Some ("An error occurred: " ++ JS.interp (message e))).

Definition handleRemoveBackgroundClick_settle (o : Outcome) (s : App)
  : App :=
  let '(s1, thrown) :=
    match o with
    | Threw e => (s, Some e)
    | Returned response =>
        let '(s', foundImage) :=
          match response_parts response with
          | Some ps => removeParts ps s
          | None => (s, false)
          end in
        if foundImage then (s', None)
        else (s', Some (newError (noImageMessage response)))
    end in
  let s2 :=
    match thrown with
    | Some e => handleRemoveBackgroundClick_catch e s1
    | None => s1
    end in
  s2 |> setBgIsLoading false.

Definition removeBackground (o : Outcome) (s : App) : App :=
  match handleRemoveBackgroundClick s with
  | (s1, Some _) => handleRemoveBackgroundClick_settle o s1
  | (s1, None) => s1
  end.

Definition handleBgReset (s : App) : App :=
  s |> setBgOriginalImage None
    |> setBgImageFile None
    |> setBgRemovedImage None
    |> setBgError None
    |> setBgIsLoading false
    |> clearFileInput.

End Part000.

(** ** The specification's reading of the operations *)

(** A fragment that is present only when its toggle is active. *)
Definition when (active : bool) (fragment : string) : string :=
  if active then fragment else EmptyString.

(** The composite instruction as the specification words it: the base text
    followed by the fragments of the active toggles, in the order
    resolution, blur removal, restoration, face. *)
Definition compositePrompt (base upscaleFactor : string)
    (deblur restore face : bool) : string :=
  base ++ when (negb (upscaleFactor =? "none")) (upscaleFragment upscaleFactor)
       ++ when deblur deblurFragment
       ++ when restore restoreFragment
       ++ when face faceFragment.

(** A segment that carries inline binary data. *)
Definition carriesImage (p : Part) : bool :=
  match inlineData p with
  | Some _ => true
  | None => false
  end.

(** The response has at least one such segment in its segment list. *)
Definition hasImage (response : GenerateContentResponse) : bool :=
  match response_parts response with
  | Some ps => existsb carriesImage ps
  | None => false
  end.

(** [needle] occurs in [s]. *)
Definition occursIn (needle s : string) : Prop :=
  exists before after, s = before ++ needle ++ after.

(** ** The rest of the two files *)

(** [s.split(sep)] for a separator of one character: the pieces between the
    separators, one piece more than there are separators. *)
Fixpoint split (sep : ascii) (s : string) : list string :=
  match s with
  | EmptyString => [EmptyString]
  | String c rest =>
      if Ascii.eqb c sep then EmptyString :: split sep rest
      else
        match split sep rest with
        | piece :: pieces => String c piece :: pieces
        | [] => [String c EmptyString]
        end
  end.

(** [fileToGenerativePart] (the same in both files), given [reader.result]
    at [onloadend].  The promise resolves with the second piece of the
    result split at the commas and the type of the file; when the result is
    [null] the callback throws on [split] and the promise stays pending,
    which is [None] here. *)
Definition fileToGenerativePart (file : File) (readerResult : option string)
  : option Blob :=
  match readerResult with
  | None => None
  | Some result =>
      Some {| data := nth_error (split "," result) 1;
              mimeType := Some (type file) |}
  end.

(** [UploadComponent] (the same in both files): its [isDragging] cell and
    the two handlers that pass a file on to [onImageUpload]. *)
Section UploadComponent.

Variable A : Type.
Variable onImageUpload : option File -> A -> A * option File.

(** [handleDragEvents(e, dragging)]. *)
Definition handleDragEvents (dragging : bool) (isDragging : bool) : bool :=
  dragging.

(** [handleFileSelect], on [e.target.files]. *)
Definition handleFileSelect (files : list File) (a : A) : A * option File :=
  match files with
  | file :: _ => onImageUpload (Some file) a
  | [] => (a, None)
  end.

(** [handleDrop], on [e.dataTransfer.files]: the new [isDragging], the
    state and the file handed to the reader. *)
Definition handleDrop (files : list File) (isDragging : bool) (a : A)
  : bool * (A * option File) :=
  let isDragging := handleDragEvents false isDragging in
  match files with
  | file :: _ => (isDragging, onImageUpload (Some file) a)
  | [] => (isDragging, (a, None))
  end.

End UploadComponent.

(** *** [src/index.tsx]: the other handlers, the view and the events *)

Module IndexView.

Definition setShowLanding (v : bool) (s : Index.App) : Index.App :=
  {| Index.apiKeyReady := Index.apiKeyReady s; Index.showLanding := v;
     Index.activeMode := Index.activeMode s;
     Index.enhancerState := Index.enhancerState s;
     Index.removerState := Index.removerState s;
     Index.fileInputValue := Index.fileInputValue s |}.

Definition setActiveMode (v : Mode) (s : Index.App) : Index.App :=
  {| Index.apiKeyReady := Index.apiKeyReady s;
     Index.showLanding := Index.showLanding s;
     Index.activeMode := v;
     Index.enhancerState := Index.enhancerState s;
     Index.removerState := Index.removerState s;
     Index.fileInputValue := Index.fileInputValue s |}.

(** The effect run at mount: [checkApiKey], given what
    [hasSelectedApiKey] resolves to. *)
Definition checkApiKey (hasKey : bool) (s : Index.App) : Index.App :=
  s |> Index.setApiKeyReady hasKey.

(** [handleSelectKey] of [ApiKeySelector], after the dialog has closed: it
    calls [onKeySelected], which is [() => setApiKeyReady(true)]. *)
Definition handleSelectKey (s : Index.App) : Index.App :=
  s |> Index.setApiKeyReady true.

(** [onGetStarted] of [LandingPage]. *)
Definition onGetStarted (s : Index.App) : Index.App :=
  s |> setShowLanding false.

(** [disabled] of the enhance button: [isLoading || !prompt.trim()]. *)
Definition enhanceDisabled (s : Index.App) : bool :=
  Index.isLoading (Index.enhancerState s)
  || JS.falsy (JS.trim (Index.prompt (Index.enhancerState s))).

(** [disabled] of the remove button. *)
Definition removeDisabled (s : Index.App) : bool :=
  Index.bgIsLoading (Index.removerState s).

(** [!x] for a string or [null]. *)
Definition absent (x : option string) : bool :=
  match x with
  | Some u => JS.falsy u
  | None => true
  end.

(** What the main view shows for a pipeline: the upload area while
    [!originalImage], the editor otherwise. *)
Inductive PipelineView := UploadArea | EditorArea.

Definition enhancerView (s : Index.App) : PipelineView :=
  if absent (Index.originalImage (Index.enhancerState s)) then UploadArea
  else EditorArea.

Definition removerView (s : Index.App) : PipelineView :=
  if absent (Index.bgOriginalImage (Index.removerState s)) then UploadArea
  else EditorArea.

(** The upscale buttons of [EditorComponent]: label and [aria-pressed]. *)
Definition upscaleButtons (s : Index.App) : list (string * bool) :=
  map (fun factor =>
         (if factor =? "none" then "None" else factor,
          Index.upscaleFactor (Index.enhancerState s) =? factor))
      Index.upscaleOptions.

(** Everything that runs a handler of [App]: the user's actions and the
    ends of the reads and of the requests. *)
Inductive Event :=
| ApiKeyChecked (hasKey : bool)
| KeySelected
| GetStarted
| ModeSelected (mode : Mode)
| FilesSelected (files : list File)
| FilesDropped (files : list File)
| ReadEnded (result : option string)
| ControlUsed (c : Index.Control)
| EnhanceClicked
| EnhanceSettled (o : Outcome)
| ResetClicked
| BgFilesSelected (files : list File)
| BgFilesDropped (files : list File)
| BgReadEnded (result : option string)
| RemoveClicked
| RemoveSettled (o : Outcome)
| BgResetClicked.

(** The handler an event runs. *)
Definition step (s : Index.App) (ev : Event) : Index.App :=
  match ev with
  | ApiKeyChecked hasKey => checkApiKey hasKey s
  | KeySelected => handleSelectKey s
  | GetStarted => onGetStarted s
  | ModeSelected mode => setActiveMode mode s
  | FilesSelected files => fst (handleFileSelect Index.handleImageUpload files s)
  | FilesDropped files =>
      fst (snd (handleDrop Index.handleImageUpload files false s))
  | ReadEnded result => Index.handleImageUpload_onloadend result s
  | ControlUsed c => Index.onControl s c
  | EnhanceClicked => fst (Index.handleEnhanceClick s)
  | EnhanceSettled o => Index.handleEnhanceClick_settle o s
  | ResetClicked => Index.handleReset s
  | BgFilesSelected files =>
      fst (handleFileSelect Index.handleBgImageUpload files s)
  | BgFilesDropped files =>
      fst (snd (handleDrop Index.handleBgImageUpload files false s))
  | BgReadEnded result => Index.handleBgImageUpload_onloadend result s
  | RemoveClicked => fst (Index.handleRemoveBackgroundClick s)
  | RemoveSettled o => Index.handleRemoveBackgroundClick_settle o s
  | BgResetClicked => Index.handleBgReset s
  end.

Definition run (events : list Event) (s : Index.App) : Index.App :=
  fold_left step events s.

(** An upscale button exists only for the factors of [upscaleOptions]. *)
Definition offered (ev : Event) : bool :=
  match ev with
  | ControlUsed (Index.UpscaleButton factor) =>
      existsb (String.eqb factor) Index.upscaleOptions
  | _ => true
  end.

(** The texts the [error] cell can hold. *)
Definition enhancerErrorForm (e : option string) : Prop :=
  e = None
  \/ e = Some invalidTypeText
  \/ e = Some tooLargeText
  \/ e = Some Index.credentialText
  \/ exists msg, e = Some ("An error occurred during enhancement: " ++ msg).

(** The texts the [bgError] cell can hold. *)
Definition removerErrorForm (e : option string) : Prop :=
  e = None
  \/ e = Some invalidTypeText
  \/ e = Some tooLargeText
  \/ e = Some Index.credentialText
  \/ exists msg, e = Some ("An error occurred: " ++ msg).

End IndexView.

(** A string without a comma. *)
Definition commaFree (s : string) : Prop := JS.includes s "," = false.

(** The outcomes after which a request handler finds an image. *)
Definition succeeds (o : Outcome) : bool :=
  match o with
  | Returned response => hasImage response
  | Threw _ => false
  end.

(** An upload to the background remover whose read ends before any other
    event. *)
Definition index_bgIngest (file : option File) (result : option string)
    (s : Index.App) : Index.App :=
  match Index.handleBgImageUpload file s with
  | (s1, Some _) => Index.handleBgImageUpload_onloadend result s1
  | (s1, None) => s1
  end.

Definition part000_bgIngest (file : option File) (result : option string)
    (s : Part000.App) : Part000.App :=
  match Part000.handleBgImageUpload file s with
  | (s1, Some _) => Part000.handleBgImageUpload_onloadend result s1
  | (s1, None) => s1
  end.

(** The events that run a handler of the enhancer, and those that run a
    handler of the remover. *)
Definition enhancerEvent (ev : IndexView.Event) : bool :=
  match ev with
  | IndexView.FilesSelected _ | IndexView.FilesDropped _
  | IndexView.ReadEnded _ | IndexView.ControlUsed _
  | IndexView.EnhanceClicked | IndexView.EnhanceSettled _
  | IndexView.ResetClicked => true
  | _ => false
  end.

Definition removerEvent (ev : IndexView.Event) : bool :=
  match ev with
  | IndexView.BgFilesSelected _ | IndexView.BgFilesDropped _
  | IndexView.BgReadEnded _ | IndexView.RemoveClicked
  | IndexView.RemoveSettled _ | IndexView.BgResetClicked => true
  | _ => false
  end.

(** A data URL as the enhancer builds it, and one of type image/png. *)
Definition dataUrlForm (x : option string) : Prop :=
  x = None
  \/ exists mime base64, x = Some ("data:" ++ mime ++ ";base64," ++ base64).

Definition pngUrlForm (x : option string) : Prop :=
  x = None \/ exists base64, x = Some ("data:image/png;base64," ++ base64).

(** * Properties *)

(** ** Strings *)

Lemma append_nil_r (s : string) : s ++ EmptyString = s.
Proof. induction s as [|c s IH]; simpl; [reflexivity | now rewrite IH]. Qed.

Lemma append_assoc (a b c : string) : (a ++ b) ++ c = a ++ b ++ c.
Proof. induction a as [|x a IH]; simpl; [reflexivity | now rewrite IH]. Qed.

Lemma startsWith_app (p t : string) : JS.startsWith (p ++ t) p = true.
Proof.
  induction p as [|c p IH]; simpl; [reflexivity|].
  now rewrite Ascii.eqb_refl, IH.
Qed.

(** [startsWith] is the prefix test. *)
Lemma startsWith_spec (s p : string) :
  JS.startsWith s p = true <-> exists t, s = p ++ t.
Proof.
  split.
  - revert s; induction p as [|c p IH]; intros s H.
    + now exists s.
    + destruct s as [|d s]; simpl in H; [discriminate|].
      apply andb_true_iff in H as [Hc Hs].
      apply Ascii.eqb_eq in Hc; subst d.
      destruct (IH _ Hs) as [t ->]. now exists t.
  - intros [t ->]. apply startsWith_app.
Qed.

(** [includes] is the substring test. *)
Lemma includes_spec (s needle : string) :
  JS.includes s needle = true <-> occursIn needle s.
Proof.
  unfold occursIn; split.
  - induction s as [|c s IH]; simpl; intros H.
    + rewrite orb_false_r in H. apply startsWith_spec in H as [t Ht].
      now exists EmptyString, t.
    + apply orb_true_iff in H as [H|H].
      * apply startsWith_spec in H as [t Ht]. now exists EmptyString, t.
      * destruct (IH H) as (b & a & ->). now exists (String c b), a.
  - intros (b & a & ->). induction b as [|c b IH].
    + simpl (EmptyString ++ _).
      destruct (needle ++ a) eqn:E; simpl; rewrite <- E;
        now rewrite startsWith_app.
    + simpl. rewrite IH. apply orb_true_r.
Qed.

(** A character that is not in the needle cuts the search in two. *)
Lemma startsWith_cut (c : ascii) (a b needle : string) :
  JS.includes needle (String c EmptyString) = false ->
  JS.startsWith (a ++ String c b) needle = JS.startsWith a needle.
Proof.
  revert needle; induction a as [|x a IH]; intros needle H.
  - destruct needle as [|y needle]; [reflexivity|]. simpl in *.
    destruct (Ascii.eqb_spec y c) as [->|Hne].
    + now rewrite Ascii.eqb_refl in H.
    + reflexivity.
  - destruct needle as [|y needle]; [reflexivity|]. simpl.
    rewrite IH; [reflexivity|].
    simpl in H. apply orb_false_iff in H as [_ H]. exact H.
Qed.

Lemma includes_cut (c : ascii) (a b needle : string) :
  needle <> EmptyString ->
  JS.includes needle (String c EmptyString) = false ->
  JS.includes (a ++ String c b) needle
  = JS.includes a needle || JS.includes b needle.
Proof.
  intros Hne H. induction a as [|x a IH].
  - simpl (EmptyString ++ _).
    destruct needle as [|y needle]; [congruence|].
    pose proof (startsWith_cut c EmptyString b _ H) as E.
    simpl (EmptyString ++ _) in E.
    cbn [JS.includes]. rewrite E. reflexivity.
  - pose proof (startsWith_cut c (String x a) b _ H) as E.
    cbn [append] in E. cbn [append JS.includes].
    rewrite E, IH. now rewrite orb_assoc.
Qed.

(** [trim], [includes] and the size text on samples. *)
Example string_samples :
  JS.trim (String (ascii_of_nat 10) "  no image  ") = "no image"
  /\ JS.trim (String (ascii_of_nat 194) (String (ascii_of_nat 160) "x ")) = "x"
  /\ JS.trim "   " = EmptyString
  /\ JS.includes "xx API Key must be set." "API Key must be set" = true
  /\ JS.includes "API Key must be se" "API Key must be set" = false
  /\ JS.startsWith "image/svg+xml" "image/" = true
  /\ JS.startsWith "text/plain" "image/" = false
  /\ tooLargeText = "File size exceeds the 10MB limit.".
Proof. vm_compute. repeat split. Qed.

(** ** Prompt assembly *)

Section Chain.

Variables (base f1 f2 f3 f4 : string) (b1 b2 b3 b4 : bool).

(** Four conditional appends in a row are one concatenation of optional
    fragments. *)
Lemma append_chain :
  (let p := base in
   let p := if b1 then p ++ f1 else p in
   let p := if b2 then p ++ f2 else p in
   let p := if b3 then p ++ f3 else p in
   let p := if b4 then p ++ f4 else p in
   p)
  = base ++ when b1 f1 ++ when b2 f2 ++ when b3 f3 ++ when b4 f4.
Proof.
  destruct b1, b2, b3, b4; cbv zeta; unfold when;
    rewrite ?append_assoc, ?append_nil_r; reflexivity.
Qed.

End Chain.

Lemma finalPrompt_composite (e : Index.Enhancer) :
  Index.finalPrompt e
  = compositePrompt (Index.prompt e) (Index.upscaleFactor e)
      (Index.isDeblurEnabled e) (Index.isRestoreEnabled e)
      (Index.isFaceEnhancementEnabled e).
Proof. unfold Index.finalPrompt, compositePrompt. apply append_chain. Qed.

Section FoldOrder.

Variables (A B : Type) (f : A -> B -> A).

(** Steps that commute pairwise can be folded in any order. *)
Lemma fold_left_order (l l' : list B) :
  Permutation l l' ->
  (forall x y a, In x l -> In y l -> f (f a x) y = f (f a y) x) ->
  forall a, fold_left f l a = fold_left f l' a.
Proof.
  induction 1 as [|x l l' Hp IH|x y l|l l' l'' Hp1 IH1 Hp2 IH2];
    intros Hc a.
  - reflexivity.
  - simpl. apply IH. intros u v b Hu Hv. apply Hc; now right.
  - simpl. rewrite (Hc y x a); [reflexivity| |]; simpl; tauto.
  - rewrite IH1 by exact Hc. apply IH2.
    intros u v b Hu Hv.
    apply Hc; apply (Permutation_in _ (Permutation_sym Hp1)); assumption.
Qed.

End FoldOrder.

(** The four toggle controls set four different cells. *)
Lemma toggles_commute (u : string) (d r fa : bool) (x y : Index.Control)
    (s : Index.App) :
  let toggles := [Index.UpscaleButton u; Index.DeblurImageToggle d;
                  Index.RestoreImageToggle r; Index.FaceEnhanceToggle fa] in
  In x toggles -> In y toggles ->
  Index.onControl (Index.onControl s x) y
  = Index.onControl (Index.onControl s y) x.
Proof.
  simpl. intros Hx Hy.
  repeat (destruct Hx as [<-|Hx]; [|]); try contradiction;
    repeat (destruct Hy as [<-|Hy]; [|]); try contradiction;
    reflexivity.
Qed.

(** ** C1 *)

(** C1. The instruction sent by [handleEnhanceClick] is the prompt followed
    by the fragment of every active toggle and of no other, in the order
    resolution, blur removal, restoration, face; the order in which the
    four controls were used does not matter; the assembled string has this
    form for every prompt and every setting, and two states that agree on
    the prompt and the four toggles give the same string. *)
Theorem C1_prompt_assembly (s : Index.App) (f : File) :
  Index.imageFile (Index.enhancerState s) = Some f ->
  Index.prompt (Index.enhancerState s) <> EmptyString ->
  let e := Index.enhancerState s in
  snd (Index.handleEnhanceClick s)
  = Some {| model := "gemini-2.5-flash-image"; image := f;
            instruction :=
              compositePrompt (Index.prompt e) (Index.upscaleFactor e)
                (Index.isDeblurEnabled e) (Index.isRestoreEnabled e)
                (Index.isFaceEnhancementEnabled e) |}
  /\ (forall (u : string) (d r fa : bool) (cs : list Index.Control),
        Permutation cs [Index.UpscaleButton u; Index.DeblurImageToggle d;
                        Index.RestoreImageToggle r; Index.FaceEnhanceToggle fa] ->
        option_map instruction
          (snd (Index.handleEnhanceClick (fold_left Index.onControl cs s)))
        = Some (compositePrompt (Index.prompt e) u d r fa))
  /\ (forall e' : Index.Enhancer,
        Index.finalPrompt e'
        = compositePrompt (Index.prompt e') (Index.upscaleFactor e')
            (Index.isDeblurEnabled e') (Index.isRestoreEnabled e')
            (Index.isFaceEnhancementEnabled e'))
  /\ (forall s' : Index.App,
        let e' := Index.enhancerState s' in
        Index.prompt e' = Index.prompt e ->
        Index.upscaleFactor e' = Index.upscaleFactor e ->
        Index.isDeblurEnabled e' = Index.isDeblurEnabled e ->
        Index.isRestoreEnabled e' = Index.isRestoreEnabled e ->
        Index.isFaceEnhancementEnabled e' = Index.isFaceEnhancementEnabled e ->
        Index.finalPrompt e' = Index.finalPrompt e).
Proof.
  intros Hf Hp e. subst e. split; [|split; [|split]].
  - unfold Index.handleEnhanceClick. rewrite Hf.
    destruct (Index.prompt (Index.enhancerState s)) eqn:E; [congruence|].
    cbn [JS.falsy snd]. rewrite <- E, finalPrompt_composite. reflexivity.
  - intros u d r fa cs Hperm.
    rewrite <- (fold_left_order Index.onControl (Permutation_sym Hperm)).
    + unfold Index.handleEnhanceClick.
      destruct s as [k l m [oi fi ei p il er fe re de uf] rm fv].
      cbn in Hf, Hp |- *. rewrite Hf.
      destruct p; [congruence|].
      cbn [JS.falsy snd option_map instruction].
      rewrite finalPrompt_composite. reflexivity.
    + intros x y a. apply toggles_commute.
  - exact finalPrompt_composite.
  - intros s' e' H1 H2 H3 H4 H5. subst e'.
    rewrite !finalPrompt_composite. congruence.
Qed.

Lemma C1_prompt_assembly_witness :
  let file := mkFile "a.png" "image/png" 1 in
  let s := Index.initialApp
             |> Index.setImageFile (Some file)
             |> Index.setPrompt "Improve lighting" in
  let cs := [Index.RestoreImageToggle true; Index.FaceEnhanceToggle false;
             Index.UpscaleButton "4x"; Index.DeblurImageToggle false] in
  Index.imageFile (Index.enhancerState s) = Some file
  /\ Index.prompt (Index.enhancerState s) <> EmptyString
  /\ Permutation cs
       [Index.UpscaleButton "4x"; Index.DeblurImageToggle false;
        Index.RestoreImageToggle true; Index.FaceEnhanceToggle false]
  /\ option_map instruction
       (snd (Index.handleEnhanceClick (fold_left Index.onControl cs s)))
     = Some ("Improve lighting" ++ upscaleFragment "4x" ++ restoreFragment).
Proof.
  intros file s cs.
  assert (Hf : Index.imageFile (Index.enhancerState s) = Some file)
    by reflexivity.
  assert (Hp : Index.prompt (Index.enhancerState s) <> EmptyString)
    by discriminate.
  assert (Hperm : Permutation cs
            [Index.UpscaleButton "4x"; Index.DeblurImageToggle false;
             Index.RestoreImageToggle true; Index.FaceEnhanceToggle false]).
  { apply Permutation_sym.
    apply perm_trans with
      (l' := [Index.UpscaleButton "4x"; Index.RestoreImageToggle true;
              Index.FaceEnhanceToggle false; Index.DeblurImageToggle false]).
    - apply perm_skip.
      apply perm_trans with
        (l' := [Index.RestoreImageToggle true; Index.DeblurImageToggle false;
                Index.FaceEnhanceToggle false]).
      + apply perm_swap.
      + apply perm_skip, perm_swap.
    - apply perm_trans with
        (l' := [Index.RestoreImageToggle true; Index.UpscaleButton "4x";
                Index.FaceEnhanceToggle false; Index.DeblurImageToggle false]).
      + apply perm_swap.
      + apply perm_skip, perm_swap. }
  split; [exact Hf|]. split; [exact Hp|]. split; [exact Hperm|].
  destruct (C1_prompt_assembly s Hf Hp) as (_ & Horder & _).
  rewrite (Horder "4x" false true false cs Hperm). reflexivity.
Defined.

(** ** Scanning the response segments *)

Section Scan.

Variables (S : Type) (found : Blob -> S -> S).
Variable loop : list Part -> S -> S * bool.
Hypothesis loop_nil : forall s, loop [] s = (s, false).
Hypothesis loop_cons : forall part rest s,
  loop (part :: rest) s
  = match inlineData part with
    | Some blob => (found blob s, true)
    | None => loop rest s
    end.

(** The loop stops at the first segment with inline data. *)
Lemma loop_first (pre post : list Part) (blob : Blob) (t : option string)
    (s : S) :
  existsb carriesImage pre = false ->
  loop (pre ++ mkPart (Some blob) t :: post)%list s = (found blob s, true).
Proof.
  induction pre as [|p pre IH]; intros H; simpl app; rewrite loop_cons.
  - reflexivity.
  - simpl in H. apply orb_false_iff in H as [Hp Hpre].
    unfold carriesImage in Hp. destruct (inlineData p); [discriminate|].
    now apply IH.
Qed.

(** Without such a segment the loop changes nothing. *)
Lemma loop_none (ps : list Part) (s : S) :
  existsb carriesImage ps = false -> loop ps s = (s, false).
Proof.
  induction ps as [|p ps IH]; intros H.
  - apply loop_nil.
  - rewrite loop_cons. simpl in H. apply orb_false_iff in H as [Hp Hps].
    unfold carriesImage in Hp. destruct (inlineData p); [discriminate|].
    now apply IH.
Qed.

End Scan.

(** A list with an image segment splits at the first one. *)
Lemma first_image_split (ps : list Part) :
  existsb carriesImage ps = true ->
  exists pre blob t post,
    ps = (pre ++ mkPart (Some blob) t :: post)%list
    /\ existsb carriesImage pre = false.
Proof.
  induction ps as [|p ps IH]; intros H; [discriminate|].
  destruct p as [[blob|] t].
  - now exists [], blob, t, ps.
  - simpl in H. destruct (IH H) as (pre & blob & t' & post & -> & Hpre).
    now exists (mkPart None t :: pre), blob, t', post.
Qed.

Lemma hasImage_parts (response : GenerateContentResponse) :
  hasImage response = true ->
  exists ps, response_parts response = Some ps
             /\ existsb carriesImage ps = true.
Proof.
  unfold hasImage. destruct (response_parts response) as [ps|];
    [now exists ps | discriminate].
Qed.

Lemma index_enhance_settle_image (response : GenerateContentResponse)
    (pre post : list Part) (blob : Blob) (t : option string) (s : Index.App) :
  response_parts response = Some (pre ++ mkPart (Some blob) t :: post)%list ->
  existsb carriesImage pre = false ->
  Index.handleEnhanceClick_settle (Returned response) s
  = s |> Index.setEnhancedImage (Some (dataUrl (mimeType blob) (data blob)))
      |> Index.setIsLoading false.
Proof.
  intros Hparts Hpre. unfold Index.handleEnhanceClick_settle.
  rewrite Hparts.
  rewrite (loop_first (fun b => Index.setEnhancedImage
                                  (Some (dataUrl (mimeType b) (data b))))
             Index.enhanceParts) by (reflexivity || assumption).
  reflexivity.
Qed.

Lemma part000_enhance_settle_image (response : GenerateContentResponse)
    (pre post : list Part) (blob : Blob) (t : option string)
    (s : Part000.App) :
  response_parts response = Some (pre ++ mkPart (Some blob) t :: post)%list ->
  existsb carriesImage pre = false ->
  Part000.handleEnhanceClick_settle (Returned response) s
  = s |> Part000.setEnhancedImage
           (Some (dataUrl (mimeType blob) (data blob)))
      |> Part000.setIsLoading false.
Proof.
  intros Hparts Hpre. unfold Part000.handleEnhanceClick_settle.
  rewrite Hparts.
  rewrite (loop_first (fun b => Part000.setEnhancedImage
                                  (Some (dataUrl (mimeType b) (data b))))
             Part000.enhanceParts) by (reflexivity || assumption).
  reflexivity.
Qed.

(** ** C2 *)

(** C2. When the segment list of the response has a segment with inline
    data, [handleEnhanceClick] (in both files) sets the result image to the
    data URL made of the media type and the data of the first such segment,
    clears the in-flight flag and changes nothing else; the segments after
    the first image segment, and the rest of the response, have no effect: a
    response with the same segments up to that one gives the same state. *)
Theorem C2_first_image_segment_wins (response : GenerateContentResponse) :
  hasImage response = true ->
  exists (pre : list Part) (blob : Blob) (t : option string)
         (post : list Part),
    response_parts response = Some (pre ++ mkPart (Some blob) t :: post)%list
    /\ existsb carriesImage pre = false
    /\ (forall s : Index.App,
          Index.handleEnhanceClick_settle (Returned response) s
          = s |> Index.setEnhancedImage
                   (Some (dataUrl (mimeType blob) (data blob)))
              |> Index.setIsLoading false)
    /\ (forall s : Part000.App,
          Part000.handleEnhanceClick_settle (Returned response) s
          = s |> Part000.setEnhancedImage
                   (Some (dataUrl (mimeType blob) (data blob)))
              |> Part000.setIsLoading false)
    /\ (forall (response' : GenerateContentResponse) (post' : list Part),
          response_parts response'
          = Some (pre ++ mkPart (Some blob) t :: post')%list ->
          (forall s, Index.handleEnhanceClick_settle (Returned response') s
                     = Index.handleEnhanceClick_settle (Returned response) s)
          /\ (forall s,
                Part000.handleEnhanceClick_settle (Returned response') s
                = Part000.handleEnhanceClick_settle (Returned response) s)).
Proof.
  intros H.
  destruct (hasImage_parts response H) as (ps & Hps & Hex).
  destruct (first_image_split ps Hex) as (pre & blob & t & post & -> & Hpre).
  exists pre, blob, t, post.
  split; [exact Hps|]. split; [exact Hpre|].
  split; [|split].
  - intros s. now apply index_enhance_settle_image with pre post t.
  - intros s. now apply part000_enhance_settle_image with pre post t.
  - intros response' post' Hps'. split; intros s.
    + rewrite (index_enhance_settle_image response' pre post' blob t s Hps' Hpre).
      now rewrite (index_enhance_settle_image response pre post blob t s Hps Hpre).
    + rewrite (part000_enhance_settle_image response' pre post' blob t s Hps' Hpre).
      now rewrite (part000_enhance_settle_image response pre post blob t s Hps Hpre).
Qed.

Lemma C2_first_image_segment_wins_witness :
  let response :=
    mkResponse
      (Some [mkCandidate (Some (mkContent (Some
         [mkPart None (Some "Here is your image.");
          mkPart (Some (mkBlob (Some "AAAA") (Some "image/jpeg"))) None;
          mkPart (Some (mkBlob (Some "BBBB") (Some "image/png"))) None])))])
      (Some "Here is your image.") in
  hasImage response = true
  /\ exists blob : Blob,
       forall s : Index.App,
         Index.handleEnhanceClick_settle (Returned response) s
         = s |> Index.setEnhancedImage
                  (Some (dataUrl (mimeType blob) (data blob)))
             |> Index.setIsLoading false.
Proof.
  intros response. split; [reflexivity|].
  destruct (C2_first_image_segment_wins response eq_refl)
    as (pre & blob & t & post & _ & _ & HI & _).
  exists blob. exact HI.
Defined.

(** The same response, evaluated: the JPEG segment, which comes first, is
    the result in both files. *)
Example first_image_evaluated :
  let response :=
    mkResponse
      (Some [mkCandidate (Some (mkContent (Some
         [mkPart None (Some "Here is your image.");
          mkPart (Some (mkBlob (Some "AAAA") (Some "image/jpeg"))) None;
          mkPart (Some (mkBlob (Some "BBBB") (Some "image/png"))) None])))])
      (Some "Here is your image.") in
  Index.enhancedImage
    (Index.enhancerState
       (Index.handleEnhanceClick_settle (Returned response) Index.initialApp))
  = Some "data:image/jpeg;base64,AAAA"
  /\ Part000.enhancedImage
       (Part000.enhancerState
          (Part000.handleEnhanceClick_settle (Returned response)
             Part000.initialApp))
     = Some "data:image/jpeg;base64,AAAA".
Proof. split; reflexivity. Qed.

(** ** Responses without an image *)

Lemma hasImage_false (response : GenerateContentResponse) :
  hasImage response = false ->
  response_parts response = None
  \/ exists ps, response_parts response = Some ps
                /\ existsb carriesImage ps = false.
Proof.
  unfold hasImage. destruct (response_parts response) as [ps|];
    [right; now exists ps | now left].
Qed.

Lemma index_enhance_settle_no_image (response : GenerateContentResponse)
    (s : Index.App) :
  hasImage response = false ->
  Index.handleEnhanceClick_settle (Returned response) s
  = s |> Index.handleEnhanceClick_catch (newError (noImageMessage response))
      |> Index.setIsLoading false.
Proof.
  intros H. unfold Index.handleEnhanceClick_settle.
  destruct (hasImage_false response H) as [->|(ps & -> & Hps)].
  - reflexivity.
  - rewrite (loop_none (fun b => Index.setEnhancedImage
                                   (Some (dataUrl (mimeType b) (data b))))
               Index.enhanceParts) by (reflexivity || assumption).
    reflexivity.
Qed.

Lemma part000_enhance_settle_no_image (response : GenerateContentResponse)
    (s : Part000.App) :
  hasImage response = false ->
  Part000.handleEnhanceClick_settle (Returned response) s
  = s |> Part000.setError
           (Some ("An error occurred during enhancement: "
                    ++ noImageMessage response))
      |> Part000.setIsLoading false.
Proof.
  intros H. unfold Part000.handleEnhanceClick_settle.
  destruct (hasImage_false response H) as [->|(ps & -> & Hps)].
  - reflexivity.
  - rewrite (loop_none (fun b => Part000.setEnhancedImage
                                   (Some (dataUrl (mimeType b) (data b))))
               Part000.enhanceParts) by (reflexivity || assumption).
    reflexivity.
Qed.

(** A needle without the quote character is in a quoted text only if it is
    in the part before the quotes or in the text between them. *)
Lemma includes_quoted (before quoted needle : string) (q : ascii) :
  needle <> EmptyString ->
  JS.includes needle (String q EmptyString) = false ->
  JS.includes
    (before ++ String q EmptyString ++ quoted ++ String q EmptyString) needle
  = JS.includes before needle || JS.includes quoted needle.
Proof.
  intros Hne Hq.
  change (String q EmptyString ++ quoted ++ String q EmptyString)
    with (String q (quoted ++ String q EmptyString)).
  rewrite (includes_cut q before _ Hne Hq).
  rewrite (includes_cut q quoted EmptyString Hne Hq).
  destruct needle as [|c needle]; [congruence|].
  cbn [JS.includes JS.startsWith]. now rewrite !orb_false_r.
Qed.

(** The no-image error is taken for a credential error exactly when the
    text quoted in it has one of the two substrings. *)
Lemma credential_in_noImageMessage (response : GenerateContentResponse) :
  Index.isCredentialError (noImageMessage response)
  = Index.isCredentialError
      (JS.or_else (option_map JS.trim (text response)) "No text response.").
Proof.
  unfold noImageMessage, Index.isCredentialError, JS.dquote.
  cbv zeta.
  rewrite !includes_quoted by (discriminate || reflexivity).
  reflexivity.
Qed.

Lemma index_catch_no_image (response : GenerateContentResponse)
    (s : Index.App) :
  Index.handleEnhanceClick_catch (newError (noImageMessage response)) s
  = if Index.isCredentialError
         (JS.or_else (option_map JS.trim (text response)) "No text response.")
    then s |> Index.setError (Some Index.credentialText)
           |> Index.setApiKeyReady false
    else s |> Index.setError
                (Some ("An error occurred during enhancement: "
                         ++ noImageMessage response)).
Proof.
  unfold Index.handleEnhanceClick_catch.
  change (Index.errorMessage (newError (noImageMessage response)))
    with (noImageMessage response).
  now rewrite credential_in_noImageMessage.
Qed.

(** A click that passes the guard. *)
Lemma index_enhance_click (o : Outcome) (s : Index.App) (f : File) :
  Index.imageFile (Index.enhancerState s) = Some f ->
  Index.prompt (Index.enhancerState s) <> EmptyString ->
  Index.enhance o s
  = Index.handleEnhanceClick_settle o
      (s |> Index.setIsLoading true |> Index.setError None
         |> Index.setEnhancedImage None).
Proof.
  intros Hf Hp. unfold Index.enhance, Index.handleEnhanceClick.
  rewrite Hf. destruct (Index.prompt (Index.enhancerState s));
    [congruence | reflexivity].
Qed.

Lemma part000_enhance_click (o : Outcome) (s : Part000.App) (f : File) :
  Part000.imageFile (Part000.enhancerState s) = Some f ->
  Part000.prompt (Part000.enhancerState s) <> EmptyString ->
  Part000.enhance o s
  = Part000.handleEnhanceClick_settle o
      (s |> Part000.setIsLoading true |> Part000.setError None
         |> Part000.setEnhancedImage None).
Proof.
  intros Hf Hp. unfold Part000.enhance, Part000.handleEnhanceClick.
  rewrite Hf. destruct (Part000.prompt (Part000.enhancerState s));
    [congruence | reflexivity].
Qed.

(** ** C3 *)

(** C3 (amended). When no segment of the response has inline data, a click
    on the enhance button ends with an error text, no result image and the
    in-flight flag cleared, in both files.  The error thrown quotes the
    trimmed text of the response when that is not empty and the placeholder
    otherwise; it is the reason displayed in [part_000] always, and in
    [index.tsx] when the quoted text has none of the two credential
    substrings.  When it has one, the [catch] block of [index.tsx] takes
    the error for a credential error. *)
Theorem C3_no_image_segment_fails (response : GenerateContentResponse) :
  hasImage response = false ->
  let textResponse :=
    JS.or_else (option_map JS.trim (text response)) "No text response." in
  let reason :=
    "The AI did not return an image. Response: "
      ++ JS.dquote ++ textResponse ++ JS.dquote in
  (forall t, text response = Some t -> JS.trim t <> EmptyString ->
             textResponse = JS.trim t)
  /\ (forall t, text response = Some t -> JS.trim t = EmptyString ->
                textResponse = "No text response.")
  /\ (text response = None -> textResponse = "No text response.")
  /\ (forall s : Part000.App,
        Part000.handleEnhanceClick_settle (Returned response) s
        = s |> Part000.setError
                 (Some ("An error occurred during enhancement: " ++ reason))
            |> Part000.setIsLoading false)
  /\ (forall s : Index.App,
        Index.isCredentialError textResponse = false ->
        Index.handleEnhanceClick_settle (Returned response) s
        = s |> Index.setError
                 (Some ("An error occurred during enhancement: " ++ reason))
            |> Index.setIsLoading false)
  /\ (forall s : Index.App,
        Index.isCredentialError textResponse = true ->
        Index.handleEnhanceClick_settle (Returned response) s
        = s |> Index.setError (Some Index.credentialText)
            |> Index.setApiKeyReady false
            |> Index.setIsLoading false)
  /\ (forall (s : Part000.App) (f : File),
        Part000.imageFile (Part000.enhancerState s) = Some f ->
        Part000.prompt (Part000.enhancerState s) <> EmptyString ->
        let e := Part000.enhancerState (Part000.enhance (Returned response) s) in
        Part000.enhancedImage e = None
        /\ Part000.error e <> None
        /\ Part000.isLoading e = false)
  /\ (forall (s : Index.App) (f : File),
        Index.imageFile (Index.enhancerState s) = Some f ->
        Index.prompt (Index.enhancerState s) <> EmptyString ->
        let e := Index.enhancerState (Index.enhance (Returned response) s) in
        Index.enhancedImage e = None
        /\ Index.error e <> None
        /\ Index.isLoading e = false).
Proof.
  intros H textResponse reason.
  split; [|split; [|split; [|split; [|split; [|split; [|split]]]]]].
  - intros t Ht Hne. subst textResponse. rewrite Ht. simpl.
    destruct (JS.trim t); [congruence | reflexivity].
  - intros t Ht He. subst textResponse. rewrite Ht. simpl. now rewrite He.
  - intros Ht. subst textResponse. now rewrite Ht.
  - intros s. now apply part000_enhance_settle_no_image.
  - intros s Hc. rewrite index_enhance_settle_no_image by exact H.
    rewrite index_catch_no_image. fold textResponse. now rewrite Hc.
  - intros s Hc. rewrite index_enhance_settle_no_image by exact H.
    rewrite index_catch_no_image. fold textResponse. now rewrite Hc.
  - intros s f Hf Hp e. subst e.
    rewrite (part000_enhance_click _ s Hf Hp).
    rewrite part000_enhance_settle_no_image by exact H.
    destruct s as [m [oi fi ei p il er fe re uf] rm fv].
    repeat split; discriminate.
  - intros s f Hf Hp e. subst e.
    rewrite (index_enhance_click _ s Hf Hp).
    rewrite index_enhance_settle_no_image by exact H.
    rewrite index_catch_no_image.
    destruct s as [k l m [oi fi ei p il er fe re de uf] rm fv].
    destruct (Index.isCredentialError _); repeat split; discriminate.
Qed.

Lemma C3_no_image_segment_fails_witness :
  let response :=
    mkResponse
      (Some [mkCandidate (Some (mkContent (Some
         [mkPart None (Some " I cannot edit this photo. ")])))])
      (Some " I cannot edit this photo. ") in
  hasImage response = false
  /\ forall s : Index.App,
       Index.handleEnhanceClick_settle (Returned response) s
       = s |> Index.setError
                (Some ("An error occurred during enhancement: "
                         ++ "The AI did not return an image. Response: "
                         ++ JS.dquote ++ "I cannot edit this photo."
                         ++ JS.dquote))
           |> Index.setIsLoading false.
Proof.
  intros response. split; [reflexivity|].
  destruct (C3_no_image_segment_fails response eq_refl)
    as (_ & _ & _ & _ & HI & _).
  intros s. exact (HI s eq_refl).
Defined.

(** C3, as stated, fails in [index.tsx]: a response without an image whose
    text is one of the credential substrings ends with the credential
    text, which has neither the response text nor the placeholder in it,
    and with the API key marked as not ready. *)
Lemma C3_counterexample :
  let response :=
    mkResponse
      (Some [mkCandidate (Some (mkContent (Some
         [mkPart None (Some "Requested entity was not found")])))])
      (Some "Requested entity was not found") in
  let s :=
    Index.initialApp
      |> Index.setApiKeyReady true
      |> Index.setImageFile (Some (mkFile "a.png" "image/png" 1)) in
  let s' := Index.enhance (Returned response) s in
  hasImage response = false
  /\ Index.error (Index.enhancerState s')
     = Some "Your API Key is not valid or has been revoked. Please select a new key to continue."
  /\ JS.includes Index.credentialText "Requested entity was not found" = false
  /\ JS.includes Index.credentialText "No text response." = false
  /\ Index.apiKeyReady s' = false.
Proof. vm_compute. repeat split. Qed.

(** ** Background removal: the media type of the result *)

Lemma index_remove_settle_image (response : GenerateContentResponse)
    (pre post : list Part) (blob : Blob) (t : option string) (s : Index.App) :
  response_parts response = Some (pre ++ mkPart (Some blob) t :: post)%list ->
  existsb carriesImage pre = false ->
  Index.handleRemoveBackgroundClick_settle (Returned response) s
  = s |> Index.setBgRemovedImage
           (Some ("data:image/png;base64," ++ JS.interp (data blob)))
      |> Index.setBgIsLoading false.
Proof.
  intros Hparts Hpre. unfold Index.handleRemoveBackgroundClick_settle.
  rewrite Hparts.
  rewrite (loop_first (fun b => Index.setBgRemovedImage
                                  (Some (dataUrl (Some "image/png") (data b))))
             Index.removeParts) by (reflexivity || assumption).
  reflexivity.
Qed.

Lemma part000_remove_settle_image (response : GenerateContentResponse)
    (pre post : list Part) (blob : Blob) (t : option string)
    (s : Part000.App) :
  response_parts response = Some (pre ++ mkPart (Some blob) t :: post)%list ->
  existsb carriesImage pre = false ->
  Part000.handleRemoveBackgroundClick_settle (Returned response) s
  = s |> Part000.setBgRemovedImage
           (Some (dataUrl (mimeType blob) (data blob)))
      |> Part000.setBgIsLoading false.
Proof.
  intros Hparts Hpre. unfold Part000.handleRemoveBackgroundClick_settle.
  rewrite Hparts.
  rewrite (loop_first (fun b => Part000.setBgRemovedImage
                                  (Some (dataUrl (mimeType b) (data b))))
             Part000.removeParts) by (reflexivity || assumption).
  reflexivity.
Qed.

(** ** C4 *)

(** C4 (amended). For a background-removal response with an image segment,
    [index.tsx] records the data of the first such segment under the media
    type image/png whatever type the segment reports, and [part_000] records
    it under the type the segment reports. *)
Theorem C4_background_removal_media_type (response : GenerateContentResponse) :
  hasImage response = true ->
  exists (pre : list Part) (blob : Blob) (t : option string)
         (post : list Part),
    response_parts response = Some (pre ++ mkPart (Some blob) t :: post)%list
    /\ existsb carriesImage pre = false
    /\ (forall s : Index.App,
          Index.handleRemoveBackgroundClick_settle (Returned response) s
          = s |> Index.setBgRemovedImage
                   (Some ("data:image/png;base64," ++ JS.interp (data blob)))
              |> Index.setBgIsLoading false)
    /\ (forall s : Part000.App,
          Part000.handleRemoveBackgroundClick_settle (Returned response) s
          = s |> Part000.setBgRemovedImage
                   (Some ("data:" ++ JS.interp (mimeType blob) ++ ";base64,"
                            ++ JS.interp (data blob)))
              |> Part000.setBgIsLoading false).
Proof.
  intros H.
  destruct (hasImage_parts response H) as (ps & Hps & Hex).
  destruct (first_image_split ps Hex) as (pre & blob & t & post & -> & Hpre).
  exists pre, blob, t, post.
  split; [exact Hps|]. split; [exact Hpre|]. split; intros s.
  - now apply index_remove_settle_image with pre post t.
  - now apply part000_remove_settle_image with pre post t.
Qed.

Lemma C4_background_removal_media_type_witness :
  let response :=
    mkResponse
      (Some [mkCandidate (Some (mkContent (Some
         [mkPart (Some (mkBlob (Some "AAAA") (Some "image/jpeg"))) None])))])
      None in
  hasImage response = true
  /\ exists blob : Blob,
       forall s : Index.App,
         Index.handleRemoveBackgroundClick_settle (Returned response) s
         = s |> Index.setBgRemovedImage
                  (Some ("data:image/png;base64," ++ JS.interp (data blob)))
             |> Index.setBgIsLoading false.
Proof.
  intros response. split; [reflexivity|].
  destruct (C4_background_removal_media_type response eq_refl)
    as (pre & blob & t & post & _ & _ & HI & _).
  exists blob. exact HI.
Defined.

(** C4, as stated, fails in [part_000]: a response whose only segment is a
    JPEG image is recorded as image/jpeg there; [index.tsx] records the same
    response as image/png. *)
Lemma C4_counterexample :
  let response :=
    mkResponse
      (Some [mkCandidate (Some (mkContent (Some
         [mkPart (Some (mkBlob (Some "AAAA") (Some "image/jpeg"))) None])))])
      None in
  let file := mkFile "a.jpg" "image/jpeg" 1 in
  Part000.bgRemovedImage
    (Part000.removerState
       (Part000.removeBackground (Returned response)
          (Part000.initialApp |> Part000.setBgImageFile (Some file))))
  = Some "data:image/jpeg;base64,AAAA"
  /\ Index.bgRemovedImage
       (Index.removerState
          (Index.removeBackground (Returned response)
             (Index.initialApp |> Index.setBgImageFile (Some file))))
     = Some "data:image/png;base64,AAAA".
Proof. split; reflexivity. Qed.

(** ** C9 *)

Lemma isCredentialError_spec (msg : string) :
  Index.isCredentialError msg = true
  <-> occursIn "API Key must be set" msg
      \/ occursIn "Requested entity was not found" msg.
Proof.
  unfold Index.isCredentialError.
  now rewrite orb_true_iff, !includes_spec.
Qed.

(** C9 (amended). In [index.tsx], for every thrown value, with its message
    text being [e.message] or, when that is missing or empty, [String(e)]:
    if the text has one of the two credential substrings, both request
    handlers show the credential text and mark the API key as not ready, so
    that [App] renders the key selection screen; otherwise they show the
    text after a fixed prefix and leave the key flag alone.  In [part_000]
    every thrown value is shown with its message after the fixed prefix;
    there is no credential state. *)
Theorem C9_thrown_errors (e : Thrown) :
  let msg := Index.errorMessage e in
  let credential :=
    occursIn "API Key must be set" msg
    \/ occursIn "Requested entity was not found" msg in
  (credential ->
     forall s : Index.App,
       Index.handleEnhanceClick_settle (Threw e) s
       = s |> Index.setError (Some Index.credentialText)
           |> Index.setApiKeyReady false
           |> Index.setIsLoading false
       /\ Index.handleRemoveBackgroundClick_settle (Threw e) s
          = s |> Index.setBgError (Some Index.credentialText)
              |> Index.setApiKeyReady false
              |> Index.setBgIsLoading false
       /\ Index.render (Index.handleEnhanceClick_settle (Threw e) s)
          = Index.ApiKeySelector
       /\ Index.render (Index.handleRemoveBackgroundClick_settle (Threw e) s)
          = Index.ApiKeySelector)
  /\ (~ credential ->
      forall s : Index.App,
        Index.handleEnhanceClick_settle (Threw e) s
        = s |> Index.setError
                 (Some ("An error occurred during enhancement: " ++ msg))
            |> Index.setIsLoading false
        /\ Index.handleRemoveBackgroundClick_settle (Threw e) s
           = s |> Index.setBgError (Some ("An error occurred: " ++ msg))
               |> Index.setBgIsLoading false)
  /\ (forall s : Part000.App,
        Part000.handleEnhanceClick_settle (Threw e) s
        = s |> Part000.setError
                 (Some ("An error occurred during enhancement: "
                          ++ JS.interp (message e)))
            |> Part000.setIsLoading false
        /\ Part000.handleRemoveBackgroundClick_settle (Threw e) s
           = s |> Part000.setBgError
                    (Some ("An error occurred: " ++ JS.interp (message e)))
               |> Part000.setBgIsLoading false).
Proof.
  intros msg credential. subst credential. split; [|split].
  - intros Hc s. apply isCredentialError_spec in Hc.
    unfold Index.handleEnhanceClick_settle,
      Index.handleRemoveBackgroundClick_settle,
      Index.handleEnhanceClick_catch, Index.handleRemoveBackgroundClick_catch.
    fold msg. rewrite Hc. repeat split.
  - intros Hc s.
    assert (Hb : Index.isCredentialError msg = false).
    { destruct (Index.isCredentialError msg) eqn:E; [|reflexivity].
      apply isCredentialError_spec in E. contradiction. }
    unfold Index.handleEnhanceClick_settle,
      Index.handleRemoveBackgroundClick_settle,
      Index.handleEnhanceClick_catch, Index.handleRemoveBackgroundClick_catch.
    fold msg. rewrite Hb. split; reflexivity.
  - intros s. split; reflexivity.
Qed.

Lemma C9_thrown_errors_witness :
  let rejected := newError "API Key must be set when running in a browser" in
  let offline := mkThrown None "TypeError: Failed to fetch" in
  let s := Index.initialApp |> Index.setApiKeyReady true in
  occursIn "API Key must be set" (Index.errorMessage rejected)
  /\ Index.handleEnhanceClick_settle (Threw rejected) s
     = s |> Index.setError (Some Index.credentialText)
         |> Index.setApiKeyReady false
         |> Index.setIsLoading false
  /\ ~ (occursIn "API Key must be set" (Index.errorMessage offline)
        \/ occursIn "Requested entity was not found"
             (Index.errorMessage offline))
  /\ Index.handleEnhanceClick_settle (Threw offline) s
     = s |> Index.setError
              (Some "An error occurred during enhancement: TypeError: Failed to fetch")
         |> Index.setIsLoading false.
Proof.
  intros rejected offline s.
  assert (Hin : occursIn "API Key must be set" (Index.errorMessage rejected)).
  { exists EmptyString, " when running in a browser". reflexivity. }
  assert (Hout : ~ (occursIn "API Key must be set" (Index.errorMessage offline)
                    \/ occursIn "Requested entity was not found"
                         (Index.errorMessage offline))).
  { intros H. apply isCredentialError_spec in H. vm_compute in H.
    discriminate. }
  split; [exact Hin|]. split.
  - destruct (C9_thrown_errors rejected) as (Hcred & _ & _).
    exact (proj1 (Hcred (or_introl Hin) s)).
  - split; [exact Hout|].
    destruct (C9_thrown_errors offline) as (_ & Hother & _).
    exact (proj1 (Hother Hout s)).
Defined.

(** C9, as stated, fails in [part_000]: an error whose message has a
    credential substring is shown like any other error, with its message;
    [index.tsx] shows the credential text for it. *)
Lemma C9_counterexample :
  let e := newError "API Key must be set when running in a browser" in
  JS.includes (JS.interp (message e)) "API Key must be set" = true
  /\ Part000.error
       (Part000.enhancerState
          (Part000.handleEnhanceClick_settle (Threw e) Part000.initialApp))
     = Some "An error occurred during enhancement: API Key must be set when running in a browser"
  /\ Index.error
       (Index.enhancerState
          (Index.handleEnhanceClick_settle (Threw e) Index.initialApp))
     = Some Index.credentialText.
Proof. repeat split. Qed.

(** ** Ingestion *)

(** [setError] and [setBgError] write one cell. *)
Lemma setError_only (v : option string) :
  (forall s : Index.App,
     let e := Index.enhancerState s in
     Index.setError v s
     = Index.mkApp (Index.apiKeyReady s) (Index.showLanding s)
         (Index.activeMode s)
         (Index.mkEnhancer (Index.originalImage e) (Index.imageFile e)
            (Index.enhancedImage e) (Index.prompt e) (Index.isLoading e) v
            (Index.isFaceEnhancementEnabled e) (Index.isRestoreEnabled e)
            (Index.isDeblurEnabled e) (Index.upscaleFactor e))
         (Index.removerState s) (Index.fileInputValue s))
  /\ (forall s : Part000.App,
        let e := Part000.enhancerState s in
        Part000.setError v s
        = Part000.mkApp (Part000.activeMode s)
            (Part000.mkEnhancer (Part000.originalImage e)
               (Part000.imageFile e) (Part000.enhancedImage e)
               (Part000.prompt e) (Part000.isLoading e) v
               (Part000.isFaceEnhancementEnabled e)
               (Part000.isRestoreEnabled e) (Part000.upscaleFactor e))
            (Part000.removerState s) (Part000.fileInputValue s)).
Proof. split; reflexivity. Qed.

(** ** C5 *)

(** C5 (amended). The type check of ingestion rejects exactly the files
    whose declared media type does not start with image/: for such a file
    every upload handler of both files writes the invalid-type text in its
    error cell, hands nothing to the reader and changes no other cell; a
    file whose type starts with image/ goes on to the size check. *)
Theorem C5_invalid_type (f : File) :
  (JS.startsWith (type f) "image/" = false ->
     (forall s : Index.App,
        Index.handleImageUpload (Some f) s
        = (s |> Index.setError (Some invalidTypeText), None)
        /\ Index.handleBgImageUpload (Some f) s
           = (s |> Index.setBgError (Some invalidTypeText), None)
        /\ forall result, Index.ingest (Some f) result s
           = s |> Index.setError (Some invalidTypeText))
     /\ (forall s : Part000.App,
           Part000.handleImageUpload (Some f) s
           = (s |> Part000.setError (Some invalidTypeText), None)
           /\ Part000.handleBgImageUpload (Some f) s
              = (s |> Part000.setBgError (Some invalidTypeText), None)
           /\ forall result, Part000.ingest (Some f) result s
              = s |> Part000.setError (Some invalidTypeText)))
  /\ (JS.startsWith (type f) "image/" = true ->
      (forall s : Index.App,
         Index.handleImageUpload (Some f) s
         = if (MAX_FILE_SIZE_BYTES <? size f)%N
           then (s |> Index.setError (Some tooLargeText), None)
           else (s |> Index.setImageFile (Some f), Some f))
      /\ (forall s : Part000.App,
            Part000.handleImageUpload (Some f) s
            = if (MAX_FILE_SIZE_BYTES <? size f)%N
              then (s |> Part000.setError (Some tooLargeText), None)
              else (s |> Part000.setImageFile (Some f), Some f))).
Proof.
  split; intros H.
  - split; intros s;
      unfold Index.ingest, Index.handleImageUpload, Index.handleBgImageUpload,
        Part000.ingest, Part000.handleImageUpload,
        Part000.handleBgImageUpload;
      rewrite H; repeat split.
  - split; intros s;
      unfold Index.handleImageUpload, Part000.handleImageUpload;
      rewrite H; reflexivity.
Qed.

Lemma C5_invalid_type_witness :
  let pdf := mkFile "a.pdf" "application/pdf" 1000 in
  let gif := mkFile "a.gif" "image/gif" 1000 in
  JS.startsWith (type pdf) "image/" = false
  /\ Index.handleImageUpload (Some pdf) Index.initialApp
     = (Index.initialApp |> Index.setError (Some invalidTypeText), None)
  /\ JS.startsWith (type gif) "image/" = true
  /\ Index.handleImageUpload (Some gif) Index.initialApp
     = (Index.initialApp |> Index.setImageFile (Some gif), Some gif).
Proof.
  intros pdf gif.
  split; [reflexivity|]. split.
  - exact (proj1 (proj1 (proj1 (C5_invalid_type pdf) eq_refl)
                    Index.initialApp)).
  - split; [reflexivity|].
    exact (proj1 (proj2 (C5_invalid_type gif) eq_refl) Index.initialApp).
Defined.

(** C5, as stated, fails: a file declared image/gif, which is outside the
    three listed types, is taken as the source image by both files and gets
    no error text. *)
Lemma C5_counterexample :
  let gif := mkFile "a.gif" "image/gif" 1000 in
  let s := Index.ingest (Some gif) (Some "data:image/gif;base64,R0lG")
             Index.initialApp in
  let s' := Part000.ingest (Some gif) (Some "data:image/gif;base64,R0lG")
              Part000.initialApp in
  ~ In (type gif) ["image/png"; "image/jpeg"; "image/webp"]
  /\ Index.imageFile (Index.enhancerState s) = Some gif
  /\ Index.originalImage (Index.enhancerState s)
     = Some "data:image/gif;base64,R0lG"
  /\ Index.error (Index.enhancerState s) = None
  /\ Part000.imageFile (Part000.enhancerState s') = Some gif
  /\ Part000.error (Part000.enhancerState s') = None.
Proof.
  cbv zeta. split; [|repeat split].
  simpl. intros [H|[H|[H|[]]]]; discriminate.
Qed.

(** ** C6 *)

Lemma size_limit_value :
  MAX_FILE_SIZE_BYTES = 10485760%N
  /\ tooLargeText = "File size exceeds the 10MB limit.".
Proof. split; reflexivity. Qed.

(** C6 (amended). For every file that passes the type check and has more
    than 10 * 1024 * 1024 bytes, every upload handler of both files writes
    the size text in its error cell, hands nothing to the reader and changes
    no other cell; a file of exactly that many bytes that passes the type
    check is handed to the reader. *)
Theorem C6_too_large (f : File) :
  JS.startsWith (type f) "image/" = true ->
  ((10 * 1024 * 1024 < size f)%N ->
     (forall s : Index.App,
        Index.handleImageUpload (Some f) s
        = (s |> Index.setError (Some "File size exceeds the 10MB limit."), None)
        /\ Index.handleBgImageUpload (Some f) s
           = (s |> Index.setBgError (Some "File size exceeds the 10MB limit."),
              None)
        /\ forall result, Index.ingest (Some f) result s
           = s |> Index.setError (Some "File size exceeds the 10MB limit."))
     /\ (forall s : Part000.App,
           Part000.handleImageUpload (Some f) s
           = (s |> Part000.setError (Some "File size exceeds the 10MB limit."),
              None)
           /\ Part000.handleBgImageUpload (Some f) s
              = (s |> Part000.setBgError
                       (Some "File size exceeds the 10MB limit."), None)
           /\ forall result, Part000.ingest (Some f) result s
              = s |> Part000.setError
                       (Some "File size exceeds the 10MB limit.")))
  /\ (size f = (10 * 1024 * 1024)%N ->
      (forall s : Index.App,
         Index.handleImageUpload (Some f) s
         = (s |> Index.setImageFile (Some f), Some f))
      /\ (forall s : Part000.App,
            Part000.handleImageUpload (Some f) s
            = (s |> Part000.setImageFile (Some f), Some f))).
Proof.
  intros Ht. split; intros Hs.
  - assert (Hlt : (MAX_FILE_SIZE_BYTES <? size f)%N = true)
      by (apply N.ltb_lt; exact Hs).
    split; intros s;
      unfold Index.ingest, Index.handleImageUpload, Index.handleBgImageUpload,
        Part000.ingest, Part000.handleImageUpload,
        Part000.handleBgImageUpload;
      rewrite Ht, Hlt; repeat split.
  - assert (Hlt : (MAX_FILE_SIZE_BYTES <? size f)%N = false)
      by (rewrite Hs; reflexivity).
    split; intros s;
      unfold Index.handleImageUpload, Part000.handleImageUpload;
      rewrite Ht, Hlt; reflexivity.
Qed.

Lemma C6_too_large_witness :
  let big := mkFile "big.png" "image/png" 10485761 in
  let full := mkFile "full.png" "image/png" 10485760 in
  JS.startsWith (type big) "image/" = true
  /\ (10 * 1024 * 1024 < size big)%N
  /\ Index.handleImageUpload (Some big) Index.initialApp
     = (Index.initialApp
          |> Index.setError (Some "File size exceeds the 10MB limit."), None)
  /\ JS.startsWith (type full) "image/" = true
  /\ size full = (10 * 1024 * 1024)%N
  /\ Index.handleImageUpload (Some full) Index.initialApp
     = (Index.initialApp |> Index.setImageFile (Some full), Some full).
Proof.
  intros big full.
  split; [reflexivity|]. split; [reflexivity|]. split.
  - exact (proj1 (proj1 (proj1 (C6_too_large big eq_refl) eq_refl)
                    Index.initialApp)).
  - split; [reflexivity|]. split; [reflexivity|].
    exact (proj1 (proj2 (C6_too_large full eq_refl) eq_refl)
             Index.initialApp).
Defined.

(** C6, as stated, fails: the type check comes first, so a file of more
    than 10 MiB whose type does not start with image/ gets the invalid-type
    text, not the size text. *)
Lemma C6_counterexample :
  let video := mkFile "a.mp4" "video/mp4" 20000000 in
  (10 * 1024 * 1024 < size video)%N
  /\ Index.error
       (Index.enhancerState
          (fst (Index.handleImageUpload (Some video) Index.initialApp)))
     = Some "Please upload a valid image file (JPG, PNG, WEBP)."
  /\ Part000.error
       (Part000.enhancerState
          (fst (Part000.handleImageUpload (Some video) Part000.initialApp)))
     = Some "Please upload a valid image file (JPG, PNG, WEBP)."
  /\ tooLargeText <> "Please upload a valid image file (JPG, PNG, WEBP).".
Proof. repeat split. discriminate. Qed.

(** ** C7 *)

(** C7. For every file that passes both checks, ingestion (in both files)
    hands the file to the reader and, when the read ends, has the file and
    the read data as source image, no result image, no error, the default
    prompt and every toggle off; the in-flight flag and the state outside
    the enhancer are as before. *)
Theorem C7_ingest_resets (f : File) (result : option string) :
  JS.startsWith (type f) "image/" = true ->
  (size f <= MAX_FILE_SIZE_BYTES)%N ->
  (forall s : Index.App,
     Index.handleImageUpload (Some f) s
     = (s |> Index.setImageFile (Some f), Some f)
     /\ Index.ingest (Some f) result s
        = Index.mkApp (Index.apiKeyReady s) (Index.showLanding s)
            (Index.activeMode s)
            {| Index.originalImage := result;
               Index.imageFile := Some f;
               Index.enhancedImage := None;
               Index.prompt := Index.DEFAULT_PROMPT;
               Index.isLoading := Index.isLoading (Index.enhancerState s);
               Index.error := None;
               Index.isFaceEnhancementEnabled := false;
               Index.isRestoreEnabled := false;
               Index.isDeblurEnabled := false;
               Index.upscaleFactor := "none" |}
            (Index.removerState s) (Index.fileInputValue s))
  /\ (forall s : Part000.App,
        Part000.handleImageUpload (Some f) s
        = (s |> Part000.setImageFile (Some f), Some f)
        /\ Part000.ingest (Some f) result s
           = Part000.mkApp (Part000.activeMode s)
               {| Part000.originalImage := result;
                  Part000.imageFile := Some f;
                  Part000.enhancedImage := None;
                  Part000.prompt := Part000.DEFAULT_PROMPT;
                  Part000.isLoading :=
                    Part000.isLoading (Part000.enhancerState s);
                  Part000.error := None;
                  Part000.isFaceEnhancementEnabled := false;
                  Part000.isRestoreEnabled := false;
                  Part000.upscaleFactor := "none" |}
               (Part000.removerState s) (Part000.fileInputValue s)).
Proof.
  intros Ht Hs.
  assert (Hlt : (MAX_FILE_SIZE_BYTES <? size f)%N = false)
    by (apply N.ltb_ge; exact Hs).
  split; intros s;
    unfold Index.ingest, Index.handleImageUpload,
      Part000.ingest, Part000.handleImageUpload;
    rewrite Ht, Hlt; split; reflexivity.
Qed.

Lemma C7_ingest_resets_witness :
  let f := mkFile "a.webp" "image/webp" 2048 in
  let s := Index.initialApp
             |> Index.setEnhancedImage (Some "data:image/png;base64,AAAA")
             |> Index.setError (Some "An error occurred during enhancement: x")
             |> Index.setPrompt "Make it pop"
             |> Index.setIsDeblurEnabled true
             |> Index.setUpscaleFactor "8x" in
  JS.startsWith (type f) "image/" = true
  /\ (size f <= MAX_FILE_SIZE_BYTES)%N
  /\ Index.enhancerState
       (Index.ingest (Some f) (Some "data:image/webp;base64,UklG") s)
     = {| Index.originalImage := Some "data:image/webp;base64,UklG";
          Index.imageFile := Some f;
          Index.enhancedImage := None;
          Index.prompt := Index.DEFAULT_PROMPT;
          Index.isLoading := false;
          Index.error := None;
          Index.isFaceEnhancementEnabled := false;
          Index.isRestoreEnabled := false;
          Index.isDeblurEnabled := false;
          Index.upscaleFactor := "none" |}.
Proof.
  intros f s.
  assert (Ht : JS.startsWith (type f) "image/" = true) by reflexivity.
  assert (Hs : (size f <= MAX_FILE_SIZE_BYTES)%N) by (vm_compute; discriminate).
  split; [exact Ht|]. split; [exact Hs|].
  rewrite (proj2 (proj1 (C7_ingest_resets f
                           (Some "data:image/webp;base64,UklG") Ht Hs) s)).
  reflexivity.
Defined.

(** ** C8 *)

(** C8. [handleReset] (in both files) takes every state to one whose
    enhancer cells are the initial ones: no source image, no file, no
    result, no error, not in flight, the default prompt, every toggle off;
    it leaves the other cells alone, empties the file input when there is
    one, and applying it twice is applying it once.  [handleBgReset] does
    the same for the background remover. *)
Theorem C8_reset :
  (forall s : Index.App,
     Index.enhancerState (Index.handleReset s)
     = {| Index.originalImage := None; Index.imageFile := None;
          Index.enhancedImage := None;
          Index.prompt := Index.DEFAULT_PROMPT;
          Index.isLoading := false; Index.error := None;
          Index.isFaceEnhancementEnabled := false;
          Index.isRestoreEnabled := false;
          Index.isDeblurEnabled := false;
          Index.upscaleFactor := "none" |}
     /\ Index.enhancerState (Index.handleReset s) = Index.initialEnhancer
     /\ Index.removerState (Index.handleReset s) = Index.removerState s
     /\ Index.handleReset (Index.handleReset s) = Index.handleReset s
     /\ Index.removerState (Index.handleBgReset s) = Index.initialRemover
     /\ Index.enhancerState (Index.handleBgReset s) = Index.enhancerState s
     /\ Index.handleBgReset (Index.handleBgReset s) = Index.handleBgReset s)
  /\ (forall s : Part000.App,
        Part000.enhancerState (Part000.handleReset s)
        = {| Part000.originalImage := None; Part000.imageFile := None;
             Part000.enhancedImage := None;
             Part000.prompt := Part000.DEFAULT_PROMPT;
             Part000.isLoading := false; Part000.error := None;
             Part000.isFaceEnhancementEnabled := false;
             Part000.isRestoreEnabled := false;
             Part000.upscaleFactor := "none" |}
        /\ Part000.enhancerState (Part000.handleReset s)
           = Part000.initialEnhancer
        /\ Part000.removerState (Part000.handleReset s)
           = Part000.removerState s
        /\ Part000.handleReset (Part000.handleReset s) = Part000.handleReset s
        /\ Part000.removerState (Part000.handleBgReset s)
           = Part000.initialRemover
        /\ Part000.enhancerState (Part000.handleBgReset s)
           = Part000.enhancerState s
        /\ Part000.handleBgReset (Part000.handleBgReset s)
           = Part000.handleBgReset s)
  /\ Index.handleReset Index.initialApp = Index.initialApp
  /\ Part000.handleReset Part000.initialApp = Part000.initialApp.
Proof.
  split; [|split; [|split; reflexivity]].
  - intros [k l m e r [v|]];
      repeat (split; [vm_compute; reflexivity|]); vm_compute; reflexivity.
  - intros [m e r [v|]];
      repeat (split; [vm_compute; reflexivity|]); vm_compute; reflexivity.
Qed.

(** ** C10 *)

(** C10. Without an image file, or (for the enhancer) with an empty prompt,
    a click on the request button returns the state as it is and sends no
    request, whatever the service would have answered; this holds for both
    handlers of both files. *)
Theorem C10_guarded_click_is_noop :
  (forall s : Index.App,
     (Index.imageFile (Index.enhancerState s) = None
      \/ Index.prompt (Index.enhancerState s) = EmptyString ->
      Index.handleEnhanceClick s = (s, None)
      /\ forall o, Index.enhance o s = s)
     /\ (Index.bgImageFile (Index.removerState s) = None ->
         Index.handleRemoveBackgroundClick s = (s, None)
         /\ forall o, Index.removeBackground o s = s))
  /\ (forall s : Part000.App,
        (Part000.imageFile (Part000.enhancerState s) = None
         \/ Part000.prompt (Part000.enhancerState s) = EmptyString ->
         Part000.handleEnhanceClick s = (s, None)
         /\ forall o, Part000.enhance o s = s)
        /\ (Part000.bgImageFile (Part000.removerState s) = None ->
            Part000.handleRemoveBackgroundClick s = (s, None)
            /\ forall o, Part000.removeBackground o s = s)).
Proof.
  split; intros s; split.
  - intros H. unfold Index.enhance, Index.handleEnhanceClick.
    destruct (Index.imageFile (Index.enhancerState s)) as [f|].
    + destruct H as [H|H]; [discriminate|]. rewrite H. now split.
    + now split.
  - intros H. unfold Index.removeBackground, Index.handleRemoveBackgroundClick.
    rewrite H. now split.
  - intros H. unfold Part000.enhance, Part000.handleEnhanceClick.
    destruct (Part000.imageFile (Part000.enhancerState s)) as [f|].
    + destruct H as [H|H]; [discriminate|]. rewrite H. now split.
    + now split.
  - intros H.
    unfold Part000.removeBackground, Part000.handleRemoveBackgroundClick.
    rewrite H. now split.
Qed.

Lemma C10_guarded_click_is_noop_witness :
  let loaded := Index.initialApp
                  |> Index.setImageFile (Some (mkFile "a.png" "image/png" 1))
                  |> Index.setPrompt EmptyString in
  Index.imageFile (Index.enhancerState Index.initialApp) = None
  /\ Index.handleEnhanceClick Index.initialApp = (Index.initialApp, None)
  /\ Index.prompt (Index.enhancerState loaded) = EmptyString
  /\ Index.handleEnhanceClick loaded = (loaded, None)
  /\ Index.bgImageFile (Index.removerState Index.initialApp) = None
  /\ Index.handleRemoveBackgroundClick Index.initialApp
     = (Index.initialApp, None).
Proof.
  intros loaded.
  destruct C10_guarded_click_is_noop as (HI & _).
  split; [reflexivity|]. split.
  - exact (proj1 (proj1 (HI Index.initialApp) (or_introl eq_refl))).
  - split; [reflexivity|]. split.
    + exact (proj1 (proj1 (HI loaded) (or_intror eq_refl))).
    + split; [reflexivity|].
      exact (proj1 (proj2 (HI Index.initialApp) eq_refl)).
Defined.

(** * Further properties of the handlers *)

(** ** What a settling request can do to the state *)

Lemma index_remove_settle_no_image (response : GenerateContentResponse)
    (s : Index.App) :
  hasImage response = false ->
  Index.handleRemoveBackgroundClick_settle (Returned response) s
  = s |> Index.handleRemoveBackgroundClick_catch
           (newError (noImageMessage response))
      |> Index.setBgIsLoading false.
Proof.
  intros H. unfold Index.handleRemoveBackgroundClick_settle.
  destruct (hasImage_false response H) as [->|(ps & -> & Hps)].
  - reflexivity.
  - rewrite (loop_none (fun b => Index.setBgRemovedImage
                                   (Some (dataUrl (Some "image/png") (data b))))
               Index.removeParts) by (reflexivity || assumption).
    reflexivity.
Qed.

Lemma part000_remove_settle_no_image (response : GenerateContentResponse)
    (s : Part000.App) :
  hasImage response = false ->
  Part000.handleRemoveBackgroundClick_settle (Returned response) s
  = s |> Part000.setBgError
           (Some ("An error occurred: " ++ noImageMessage response))
      |> Part000.setBgIsLoading false.
Proof.
  intros H. unfold Part000.handleRemoveBackgroundClick_settle.
  destruct (hasImage_false response H) as [->|(ps & -> & Hps)].
  - reflexivity.
  - rewrite (loop_none (fun b => Part000.setBgRemovedImage
                                   (Some (dataUrl (mimeType b) (data b))))
               Part000.removeParts) by (reflexivity || assumption).
    reflexivity.
Qed.

Lemma index_remove_catch_no_image (response : GenerateContentResponse)
    (s : Index.App) :
  Index.handleRemoveBackgroundClick_catch
    (newError (noImageMessage response)) s
  = if Index.isCredentialError
         (JS.or_else (option_map JS.trim (text response)) "No text response.")
    then s |> Index.setBgError (Some Index.credentialText)
           |> Index.setApiKeyReady false
    else s |> Index.setBgError
                (Some ("An error occurred: " ++ noImageMessage response)).
Proof.
  unfold Index.handleRemoveBackgroundClick_catch.
  change (Index.errorMessage (newError (noImageMessage response)))
    with (noImageMessage response).
  now rewrite credential_in_noImageMessage.
Qed.

(** The three ways [handleEnhanceClick] of [index.tsx] can end. *)
Lemma index_enhance_settle_shape (o : Outcome) (s : Index.App) :
  (exists blob : Blob,
     Index.handleEnhanceClick_settle o s
     = s |> Index.setEnhancedImage
              (Some (dataUrl (mimeType blob) (data blob)))
         |> Index.setIsLoading false)
  \/ Index.handleEnhanceClick_settle o s
     = s |> Index.setError (Some Index.credentialText)
         |> Index.setApiKeyReady false
         |> Index.setIsLoading false
  \/ exists msg : string,
       Index.handleEnhanceClick_settle o s
       = s |> Index.setError
                (Some ("An error occurred during enhancement: " ++ msg))
           |> Index.setIsLoading false.
Proof.
  destruct o as [response|e].
  - destruct (hasImage response) eqn:H.
    + destruct (hasImage_parts response H) as (ps & Hps & Hex).
      destruct (first_image_split ps Hex)
        as (pre & blob & t & post & -> & Hpre).
      left. exists blob.
      now apply index_enhance_settle_image with pre post t.
    + right. rewrite index_enhance_settle_no_image by exact H.
      rewrite index_catch_no_image.
      destruct (Index.isCredentialError _); [now left|].
      right. now exists (noImageMessage response).
  - right. unfold Index.handleEnhanceClick_settle,
      Index.handleEnhanceClick_catch.
    destruct (Index.isCredentialError (Index.errorMessage e)); [now left|].
    right. now exists (Index.errorMessage e).
Qed.

(** The three ways [handleRemoveBackgroundClick] of [index.tsx] can end. *)
Lemma index_remove_settle_shape (o : Outcome) (s : Index.App) :
  (exists blob : Blob,
     Index.handleRemoveBackgroundClick_settle o s
     = s |> Index.setBgRemovedImage
              (Some ("data:image/png;base64," ++ JS.interp (data blob)))
         |> Index.setBgIsLoading false)
  \/ Index.handleRemoveBackgroundClick_settle o s
     = s |> Index.setBgError (Some Index.credentialText)
         |> Index.setApiKeyReady false
         |> Index.setBgIsLoading false
  \/ exists msg : string,
       Index.handleRemoveBackgroundClick_settle o s
       = s |> Index.setBgError (Some ("An error occurred: " ++ msg))
           |> Index.setBgIsLoading false.
Proof.
  destruct o as [response|e].
  - destruct (hasImage response) eqn:H.
    + destruct (hasImage_parts response H) as (ps & Hps & Hex).
      destruct (first_image_split ps Hex)
        as (pre & blob & t & post & -> & Hpre).
      left. exists blob.
      now apply index_remove_settle_image with pre post t.
    + right. rewrite index_remove_settle_no_image by exact H.
      rewrite index_remove_catch_no_image.
      destruct (Index.isCredentialError _); [now left|].
      right. now exists (noImageMessage response).
  - right. unfold Index.handleRemoveBackgroundClick_settle,
      Index.handleRemoveBackgroundClick_catch.
    destruct (Index.isCredentialError (Index.errorMessage e)); [now left|].
    right. now exists (Index.errorMessage e).
Qed.

(** The two ways the request handlers of [part_000] can end. *)
Lemma part000_enhance_settle_shape (o : Outcome) (s : Part000.App) :
  (exists blob : Blob,
     Part000.handleEnhanceClick_settle o s
     = s |> Part000.setEnhancedImage
              (Some (dataUrl (mimeType blob) (data blob)))
         |> Part000.setIsLoading false)
  \/ exists msg : string,
       Part000.handleEnhanceClick_settle o s
       = s |> Part000.setError
                (Some ("An error occurred during enhancement: " ++ msg))
           |> Part000.setIsLoading false.
Proof.
  destruct o as [response|e].
  - destruct (hasImage response) eqn:H.
    + destruct (hasImage_parts response H) as (ps & Hps & Hex).
      destruct (first_image_split ps Hex)
        as (pre & blob & t & post & -> & Hpre).
      left. exists blob.
      now apply part000_enhance_settle_image with pre post t.
    + right. exists (noImageMessage response).
      now apply part000_enhance_settle_no_image.
  - right. now exists (JS.interp (message e)).
Qed.

Lemma part000_remove_settle_shape (o : Outcome) (s : Part000.App) :
  (exists blob : Blob,
     Part000.handleRemoveBackgroundClick_settle o s
     = s |> Part000.setBgRemovedImage
              (Some (dataUrl (mimeType blob) (data blob)))
         |> Part000.setBgIsLoading false)
  \/ exists msg : string,
       Part000.handleRemoveBackgroundClick_settle o s
       = s |> Part000.setBgError (Some ("An error occurred: " ++ msg))
           |> Part000.setBgIsLoading false.
Proof.
  destruct o as [response|e].
  - destruct (hasImage response) eqn:H.
    + destruct (hasImage_parts response H) as (ps & Hps & Hex).
      destruct (first_image_split ps Hex)
        as (pre & blob & t & post & -> & Hpre).
      left. exists blob.
      now apply part000_remove_settle_image with pre post t.
    + right. exists (noImageMessage response).
      now apply part000_remove_settle_no_image.
  - right. now exists (JS.interp (message e)).
Qed.

Lemma index_remove_click (o : Outcome) (s : Index.App) (f : File) :
  Index.bgImageFile (Index.removerState s) = Some f ->
  Index.removeBackground o s
  = Index.handleRemoveBackgroundClick_settle o
      (s |> Index.setBgIsLoading true |> Index.setBgError None
         |> Index.setBgRemovedImage None).
Proof.
  intros Hf. unfold Index.removeBackground, Index.handleRemoveBackgroundClick.
  now rewrite Hf.
Qed.

Lemma part000_remove_click (o : Outcome) (s : Part000.App) (f : File) :
  Part000.bgImageFile (Part000.removerState s) = Some f ->
  Part000.removeBackground o s
  = Part000.handleRemoveBackgroundClick_settle o
      (s |> Part000.setBgIsLoading true |> Part000.setBgError None
         |> Part000.setBgRemovedImage None).
Proof.
  intros Hf.
  unfold Part000.removeBackground, Part000.handleRemoveBackgroundClick.
  now rewrite Hf.
Qed.

(** ** X1 *)

(** X1. For a file that passes both checks, [handleBgImageUpload] hands the
    file to the reader and, when the read ends, the remover has the file and
    the read data as source, no result and no error; its in-flight flag and
    the whole enhancer state, prompt and toggles included, are as before.
    Both files. *)
Theorem X1_background_ingestion (f : File) (result : option string) :
  JS.startsWith (type f) "image/" = true ->
  (size f <= MAX_FILE_SIZE_BYTES)%N ->
  (forall s : Index.App,
     Index.handleBgImageUpload (Some f) s
     = (s |> Index.setBgImageFile (Some f), Some f)
     /\ index_bgIngest (Some f) result s
        = Index.mkApp (Index.apiKeyReady s) (Index.showLanding s)
            (Index.activeMode s) (Index.enhancerState s)
            {| Index.bgOriginalImage := result;
               Index.bgImageFile := Some f;
               Index.bgRemovedImage := None;
               Index.bgIsLoading := Index.bgIsLoading (Index.removerState s);
               Index.bgError := None |}
            (Index.fileInputValue s))
  /\ (forall s : Part000.App,
        Part000.handleBgImageUpload (Some f) s
        = (s |> Part000.setBgImageFile (Some f), Some f)
        /\ part000_bgIngest (Some f) result s
           = Part000.mkApp (Part000.activeMode s) (Part000.enhancerState s)
               {| Part000.bgOriginalImage := result;
                  Part000.bgImageFile := Some f;
                  Part000.bgRemovedImage := None;
                  Part000.bgIsLoading :=
                    Part000.bgIsLoading (Part000.removerState s);
                  Part000.bgError := None |}
               (Part000.fileInputValue s)).
Proof.
  intros Ht Hs.
  assert (Hlt : (MAX_FILE_SIZE_BYTES <? size f)%N = false)
    by (apply N.ltb_ge; exact Hs).
  split; intros s;
    unfold index_bgIngest, part000_bgIngest, Index.handleBgImageUpload,
      Part000.handleBgImageUpload;
    rewrite Ht, Hlt; split; reflexivity.
Qed.

Lemma X1_background_ingestion_witness :
  let f := mkFile "cat.jpg" "image/jpeg" 4096 in
  let s := Index.initialApp
             |> Index.setPrompt "Make it pop"
             |> Index.setIsRestoreEnabled true
             |> Index.setBgRemovedImage (Some "data:image/png;base64,AAAA")
             |> Index.setBgError (Some "An error occurred: x") in
  JS.startsWith (type f) "image/" = true
  /\ (size f <= MAX_FILE_SIZE_BYTES)%N
  /\ Index.removerState
       (index_bgIngest (Some f) (Some "data:image/jpeg;base64,/9j/") s)
     = {| Index.bgOriginalImage := Some "data:image/jpeg;base64,/9j/";
          Index.bgImageFile := Some f;
          Index.bgRemovedImage := None;
          Index.bgIsLoading := false;
          Index.bgError := None |}
  /\ Index.enhancerState
       (index_bgIngest (Some f) (Some "data:image/jpeg;base64,/9j/") s)
     = Index.enhancerState s.
Proof.
  intros f s.
  assert (Ht : JS.startsWith (type f) "image/" = true) by reflexivity.
  assert (Hs : (size f <= MAX_FILE_SIZE_BYTES)%N) by (vm_compute; discriminate).
  split; [exact Ht|]. split; [exact Hs|].
  rewrite (proj2 (proj1 (X1_background_ingestion f
                           (Some "data:image/jpeg;base64,/9j/") Ht Hs) s)).
  split; reflexivity.
Defined.

(** ** X2 *)

(** X2. When no segment of the response has inline data,
    [handleRemoveBackgroundClick] ends with no result, an error text and the
    in-flight flag cleared.  The text is the no-image message after
    [An error occurred: ]; in [index.tsx] it is the credential text instead,
    with the key marked as not ready, exactly when the quoted response text
    has one of the two credential substrings. *)
Theorem X2_background_no_image (response : GenerateContentResponse) :
  hasImage response = false ->
  let textResponse :=
    JS.or_else (option_map JS.trim (text response)) "No text response." in
  let reason :=
    "The AI did not return an image. Response: "
      ++ JS.dquote ++ textResponse ++ JS.dquote in
  (forall s : Index.App,
     Index.handleRemoveBackgroundClick_settle (Returned response) s
     = if Index.isCredentialError textResponse
       then s |> Index.setBgError (Some Index.credentialText)
              |> Index.setApiKeyReady false
              |> Index.setBgIsLoading false
       else s |> Index.setBgError (Some ("An error occurred: " ++ reason))
              |> Index.setBgIsLoading false)
  /\ (forall s : Part000.App,
        Part000.handleRemoveBackgroundClick_settle (Returned response) s
        = s |> Part000.setBgError (Some ("An error occurred: " ++ reason))
            |> Part000.setBgIsLoading false)
  /\ (forall (s : Index.App) (f : File),
        Index.bgImageFile (Index.removerState s) = Some f ->
        let r := Index.removerState
                   (Index.removeBackground (Returned response) s) in
        Index.bgRemovedImage r = None
        /\ Index.bgError r <> None
        /\ Index.bgIsLoading r = false)
  /\ (forall (s : Part000.App) (f : File),
        Part000.bgImageFile (Part000.removerState s) = Some f ->
        let r := Part000.removerState
                   (Part000.removeBackground (Returned response) s) in
        Part000.bgRemovedImage r = None
        /\ Part000.bgError r <> None
        /\ Part000.bgIsLoading r = false).
Proof.
  intros H textResponse reason. split; [|split; [|split]].
  - intros s. rewrite index_remove_settle_no_image by exact H.
    rewrite index_remove_catch_no_image. fold textResponse.
    now destruct (Index.isCredentialError textResponse).
  - intros s. now apply part000_remove_settle_no_image.
  - intros s f Hf r. subst r.
    rewrite (index_remove_click _ s Hf).
    rewrite index_remove_settle_no_image by exact H.
    rewrite index_remove_catch_no_image.
    destruct s as [k l m e [oi fi ri il er] fv].
    destruct (Index.isCredentialError _); repeat split; discriminate.
  - intros s f Hf r. subst r.
    rewrite (part000_remove_click _ s Hf).
    rewrite part000_remove_settle_no_image by exact H.
    destruct s as [m e [oi fi ri il er] fv].
    repeat split; discriminate.
Qed.

Lemma X2_background_no_image_witness :
  let response := mkResponse (Some []) None in
  hasImage response = false
  /\ forall s : Index.App,
       Index.handleRemoveBackgroundClick_settle (Returned response) s
       = s |> Index.setBgError
                (Some ("An error occurred: "
                         ++ "The AI did not return an image. Response: "
                         ++ JS.dquote ++ "No text response." ++ JS.dquote))
           |> Index.setBgIsLoading false.
Proof.
  intros response. split; [reflexivity|].
  intros s.
  exact (proj1 (X2_background_no_image response eq_refl) s).
Defined.

(** ** X3 *)

Ltac finish_cells := repeat split; (reflexivity || discriminate).

(** X3. A click that passes the guard and whose call settles ends, for
    every outcome of the call, with the in-flight flag cleared and with
    either a result and no error (when the call returned a response with an
    image segment) or an error and no result (in every other case), never
    with both or neither.  Both handlers, both files. *)
Theorem X3_result_or_error (o : Outcome) :
  (forall (s : Index.App) (f : File),
     Index.imageFile (Index.enhancerState s) = Some f ->
     Index.prompt (Index.enhancerState s) <> EmptyString ->
     let e := Index.enhancerState (Index.enhance o s) in
     Index.isLoading e = false
     /\ if succeeds o
        then Index.enhancedImage e <> None /\ Index.error e = None
        else Index.enhancedImage e = None /\ Index.error e <> None)
  /\ (forall (s : Index.App) (f : File),
        Index.bgImageFile (Index.removerState s) = Some f ->
        let r := Index.removerState (Index.removeBackground o s) in
        Index.bgIsLoading r = false
        /\ if succeeds o
           then Index.bgRemovedImage r <> None /\ Index.bgError r = None
           else Index.bgRemovedImage r = None /\ Index.bgError r <> None)
  /\ (forall (s : Part000.App) (f : File),
        Part000.imageFile (Part000.enhancerState s) = Some f ->
        Part000.prompt (Part000.enhancerState s) <> EmptyString ->
        let e := Part000.enhancerState (Part000.enhance o s) in
        Part000.isLoading e = false
        /\ if succeeds o
           then Part000.enhancedImage e <> None /\ Part000.error e = None
           else Part000.enhancedImage e = None /\ Part000.error e <> None)
  /\ (forall (s : Part000.App) (f : File),
        Part000.bgImageFile (Part000.removerState s) = Some f ->
        let r := Part000.removerState (Part000.removeBackground o s) in
        Part000.bgIsLoading r = false
        /\ if succeeds o
           then Part000.bgRemovedImage r <> None /\ Part000.bgError r = None
           else Part000.bgRemovedImage r = None /\ Part000.bgError r <> None).
Proof.
  split; [|split; [|split]].
  - intros s f Hf Hp e. subst e. rewrite (index_enhance_click o s Hf Hp).
    destruct o as [response|e]; cbn [succeeds].
    + destruct (hasImage response) eqn:H.
      * destruct (hasImage_parts response H) as (ps & Hps & Hex).
        destruct (first_image_split ps Hex)
          as (pre & blob & t & post & -> & Hpre).
        rewrite (index_enhance_settle_image response pre post blob t _ Hps Hpre).
        destruct s as [k l m [oi fi ei p il er fe re de uf] rm fv].
        finish_cells.
      * rewrite index_enhance_settle_no_image by exact H.
        rewrite index_catch_no_image.
        destruct s as [k l m [oi fi ei p il er fe re de uf] rm fv].
        destruct (Index.isCredentialError _); finish_cells.
    + unfold Index.handleEnhanceClick_settle, Index.handleEnhanceClick_catch.
      destruct s as [k l m [oi fi ei p il er fe re de uf] rm fv].
      destruct (Index.isCredentialError _); finish_cells.
  - intros s f Hf r. subst r. rewrite (index_remove_click o s Hf).
    destruct o as [response|e]; cbn [succeeds].
    + destruct (hasImage response) eqn:H.
      * destruct (hasImage_parts response H) as (ps & Hps & Hex).
        destruct (first_image_split ps Hex)
          as (pre & blob & t & post & -> & Hpre).
        rewrite (index_remove_settle_image response pre post blob t _ Hps Hpre).
        destruct s as [k l m e [oi fi ri il er] fv].
        finish_cells.
      * rewrite index_remove_settle_no_image by exact H.
        rewrite index_remove_catch_no_image.
        destruct s as [k l m e [oi fi ri il er] fv].
        destruct (Index.isCredentialError _); finish_cells.
    + unfold Index.handleRemoveBackgroundClick_settle,
        Index.handleRemoveBackgroundClick_catch.
      destruct s as [k l m e0 [oi fi ri il er] fv].
      destruct (Index.isCredentialError _); finish_cells.
  - intros s f Hf Hp e. subst e. rewrite (part000_enhance_click o s Hf Hp).
    destruct o as [response|e]; cbn [succeeds].
    + destruct (hasImage response) eqn:H.
      * destruct (hasImage_parts response H) as (ps & Hps & Hex).
        destruct (first_image_split ps Hex)
          as (pre & blob & t & post & -> & Hpre).
        rewrite (part000_enhance_settle_image response pre post blob t _
                   Hps Hpre).
        destruct s as [m [oi fi ei p il er fe re uf] rm fv].
        finish_cells.
      * rewrite part000_enhance_settle_no_image by exact H.
        destruct s as [m [oi fi ei p il er fe re uf] rm fv].
        finish_cells.
    + destruct s as [m [oi fi ei p il er fe re uf] rm fv]. finish_cells.
  - intros s f Hf r. subst r. rewrite (part000_remove_click o s Hf).
    destruct o as [response|e]; cbn [succeeds].
    + destruct (hasImage response) eqn:H.
      * destruct (hasImage_parts response H) as (ps & Hps & Hex).
        destruct (first_image_split ps Hex)
          as (pre & blob & t & post & -> & Hpre).
        rewrite (part000_remove_settle_image response pre post blob t _
                   Hps Hpre).
        destruct s as [m e [oi fi ri il er] fv].
        finish_cells.
      * rewrite part000_remove_settle_no_image by exact H.
        destruct s as [m e [oi fi ri il er] fv].
        finish_cells.
    + destruct s as [m e0 [oi fi ri il er] fv]. finish_cells.
Qed.

Lemma X3_result_or_error_witness :
  let s := Index.initialApp
             |> Index.setImageFile (Some (mkFile "a.png" "image/png" 1))
             |> Index.setEnhancedImage (Some "data:image/png;base64,OLD") in
  let e := Index.enhancerState
             (Index.enhance (Threw (newError "Failed to fetch")) s) in
  Index.imageFile (Index.enhancerState s)
  = Some (mkFile "a.png" "image/png" 1)
  /\ Index.prompt (Index.enhancerState s) <> EmptyString
  /\ Index.isLoading e = false
  /\ Index.enhancedImage e = None
  /\ Index.error e <> None.
Proof.
  intros s e.
  assert (Hf : Index.imageFile (Index.enhancerState s)
               = Some (mkFile "a.png" "image/png" 1)) by reflexivity.
  assert (Hp : Index.prompt (Index.enhancerState s) <> EmptyString)
    by discriminate.
  split; [exact Hf|]. split; [exact Hp|].
  destruct (proj1 (X3_result_or_error (Threw (newError "Failed to fetch")))
              s _ Hf Hp) as (Hl & Hi & He).
  repeat split; assumption.
Defined.

(** ** What the settling of a request leaves alone *)

Lemma index_enhance_settle_keeps (o : Outcome) (s : Index.App) :
  let e := Index.enhancerState s in
  let e' := Index.enhancerState (Index.handleEnhanceClick_settle o s) in
  Index.originalImage e' = Index.originalImage e
  /\ Index.imageFile e' = Index.imageFile e
  /\ Index.prompt e' = Index.prompt e
  /\ Index.upscaleFactor e' = Index.upscaleFactor e
  /\ Index.isDeblurEnabled e' = Index.isDeblurEnabled e
  /\ Index.isRestoreEnabled e' = Index.isRestoreEnabled e
  /\ Index.isFaceEnhancementEnabled e' = Index.isFaceEnhancementEnabled e
  /\ Index.removerState (Index.handleEnhanceClick_settle o s)
     = Index.removerState s.
Proof.
  destruct (index_enhance_settle_shape o s) as [(b & ->)|[->|(msg & ->)]];
    destruct s as [k l m [oi fi ei p il er fe re de uf] rm fv];
    repeat split.
Qed.

Lemma part000_enhance_settle_keeps (o : Outcome) (s : Part000.App) :
  let e := Part000.enhancerState s in
  let e' := Part000.enhancerState (Part000.handleEnhanceClick_settle o s) in
  Part000.originalImage e' = Part000.originalImage e
  /\ Part000.imageFile e' = Part000.imageFile e
  /\ Part000.prompt e' = Part000.prompt e
  /\ Part000.upscaleFactor e' = Part000.upscaleFactor e
  /\ Part000.isRestoreEnabled e' = Part000.isRestoreEnabled e
  /\ Part000.isFaceEnhancementEnabled e'
     = Part000.isFaceEnhancementEnabled e
  /\ Part000.removerState (Part000.handleEnhanceClick_settle o s)
     = Part000.removerState s.
Proof.
  destruct (part000_enhance_settle_shape o s) as [(b & ->)|(msg & ->)];
    destruct s as [m [oi fi ei p il er fe re uf] rm fv];
    repeat split.
Qed.

Lemma index_remove_settle_keeps (o : Outcome) (s : Index.App) :
  let r := Index.removerState s in
  let r' := Index.removerState (Index.handleRemoveBackgroundClick_settle o s) in
  Index.bgOriginalImage r' = Index.bgOriginalImage r
  /\ Index.bgImageFile r' = Index.bgImageFile r
  /\ Index.enhancerState (Index.handleRemoveBackgroundClick_settle o s)
     = Index.enhancerState s.
Proof.
  destruct (index_remove_settle_shape o s) as [(b & ->)|[->|(msg & ->)]];
    destruct s as [k l m e [oi fi ri il er] fv];
    repeat split.
Qed.

Lemma part000_remove_settle_keeps (o : Outcome) (s : Part000.App) :
  let r := Part000.removerState s in
  let r' := Part000.removerState
              (Part000.handleRemoveBackgroundClick_settle o s) in
  Part000.bgOriginalImage r' = Part000.bgOriginalImage r
  /\ Part000.bgImageFile r' = Part000.bgImageFile r
  /\ Part000.enhancerState (Part000.handleRemoveBackgroundClick_settle o s)
     = Part000.enhancerState s.
Proof.
  destruct (part000_remove_settle_shape o s) as [(b & ->)|(msg & ->)];
    destruct s as [m e [oi fi ri il er] fv];
    repeat split.
Qed.

(** The request of a click is made of the file, the prompt and the
    toggles. *)
Lemma index_request_depends (s s' : Index.App) :
  let e := Index.enhancerState s in
  let e' := Index.enhancerState s' in
  Index.imageFile e' = Index.imageFile e ->
  Index.prompt e' = Index.prompt e ->
  Index.upscaleFactor e' = Index.upscaleFactor e ->
  Index.isDeblurEnabled e' = Index.isDeblurEnabled e ->
  Index.isRestoreEnabled e' = Index.isRestoreEnabled e ->
  Index.isFaceEnhancementEnabled e' = Index.isFaceEnhancementEnabled e ->
  snd (Index.handleEnhanceClick s') = snd (Index.handleEnhanceClick s).
Proof.
  intros e e' H1 H2 H3 H4 H5 H6. subst e e'.
  unfold Index.handleEnhanceClick. rewrite H1, H2.
  destruct (Index.imageFile (Index.enhancerState s)); [|reflexivity].
  destruct (JS.falsy (Index.prompt (Index.enhancerState s))); [reflexivity|].
  cbn [snd]. rewrite !finalPrompt_composite. congruence.
Qed.

Lemma part000_request_depends (s s' : Part000.App) :
  let e := Part000.enhancerState s in
  let e' := Part000.enhancerState s' in
  Part000.imageFile e' = Part000.imageFile e ->
  Part000.prompt e' = Part000.prompt e ->
  Part000.upscaleFactor e' = Part000.upscaleFactor e ->
  Part000.isRestoreEnabled e' = Part000.isRestoreEnabled e ->
  Part000.isFaceEnhancementEnabled e' = Part000.isFaceEnhancementEnabled e ->
  snd (Part000.handleEnhanceClick s') = snd (Part000.handleEnhanceClick s).
Proof.
  intros e e' H1 H2 H3 H4 H5. subst e e'.
  unfold Part000.handleEnhanceClick, Part000.finalPrompt.
  rewrite H1, H2, H3, H4, H5.
  destruct (Part000.imageFile (Part000.enhancerState s)); [|reflexivity].
  destruct (JS.falsy (Part000.prompt (Part000.enhancerState s)));
    reflexivity.
Qed.

(** ** X4 *)

(** X4. After a click that passes the guard and any outcome of its call, a
    second click sends a request again, and the same one: the same file and
    the same instruction.  A failure, and a success too, leaves everything
    the request is made of as it was.  Both handlers, both files. *)
Theorem X4_retry_sends_same_request (o : Outcome) :
  (forall (s : Index.App) (f : File),
     Index.imageFile (Index.enhancerState s) = Some f ->
     Index.prompt (Index.enhancerState s) <> EmptyString ->
     snd (Index.handleEnhanceClick (Index.enhance o s))
     = snd (Index.handleEnhanceClick s)
     /\ snd (Index.handleEnhanceClick s)
        = Some {| model := "gemini-2.5-flash-image"; image := f;
                  instruction := Index.finalPrompt (Index.enhancerState s) |})
  /\ (forall (s : Index.App) (f : File),
        Index.bgImageFile (Index.removerState s) = Some f ->
        snd (Index.handleRemoveBackgroundClick (Index.removeBackground o s))
        = Some {| model := "gemini-2.5-flash-image"; image := f;
                  instruction := Index.bgRemovePrompt |})
  /\ (forall (s : Part000.App) (f : File),
        Part000.imageFile (Part000.enhancerState s) = Some f ->
        Part000.prompt (Part000.enhancerState s) <> EmptyString ->
        snd (Part000.handleEnhanceClick (Part000.enhance o s))
        = snd (Part000.handleEnhanceClick s)
        /\ snd (Part000.handleEnhanceClick s)
           = Some {| model := "gemini-2.5-flash-image"; image := f;
                     instruction :=
                       Part000.finalPrompt (Part000.enhancerState s) |})
  /\ (forall (s : Part000.App) (f : File),
        Part000.bgImageFile (Part000.removerState s) = Some f ->
        snd (Part000.handleRemoveBackgroundClick
               (Part000.removeBackground o s))
        = Some {| model := "gemini-2.5-flash-image"; image := f;
                  instruction := Part000.bgRemovePrompt |}).
Proof.
  split; [|split; [|split]].
  - intros s f Hf Hp. split.
    + rewrite (index_enhance_click o s Hf Hp).
      destruct (index_enhance_settle_keeps o
                  (s |> Index.setIsLoading true |> Index.setError None
                     |> Index.setEnhancedImage None))
        as (_ & H1 & H2 & H3 & H4 & H5 & H6 & _).
      apply index_request_depends.
      * rewrite H1. now destruct s as [k l m [] rm fv].
      * rewrite H2. now destruct s as [k l m [] rm fv].
      * rewrite H3. now destruct s as [k l m [] rm fv].
      * rewrite H4. now destruct s as [k l m [] rm fv].
      * rewrite H5. now destruct s as [k l m [] rm fv].
      * rewrite H6. now destruct s as [k l m [] rm fv].
    + unfold Index.handleEnhanceClick. rewrite Hf.
      destruct (Index.prompt (Index.enhancerState s)); [congruence|].
      reflexivity.
  - intros s f Hf. rewrite (index_remove_click o s Hf).
    destruct (index_remove_settle_keeps o
                (s |> Index.setBgIsLoading true |> Index.setBgError None
                   |> Index.setBgRemovedImage None)) as (_ & H1 & _).
    unfold Index.handleRemoveBackgroundClick at 1. rewrite H1.
    destruct s as [k l m e [oi fi ri il er] fv]. cbn in Hf |- *.
    now rewrite Hf.
  - intros s f Hf Hp. split.
    + rewrite (part000_enhance_click o s Hf Hp).
      destruct (part000_enhance_settle_keeps o
                  (s |> Part000.setIsLoading true |> Part000.setError None
                     |> Part000.setEnhancedImage None))
        as (_ & H1 & H2 & H3 & H4 & H5 & _).
      apply part000_request_depends.
      * rewrite H1. now destruct s as [m [] rm fv].
      * rewrite H2. now destruct s as [m [] rm fv].
      * rewrite H3. now destruct s as [m [] rm fv].
      * rewrite H4. now destruct s as [m [] rm fv].
      * rewrite H5. now destruct s as [m [] rm fv].
    + unfold Part000.handleEnhanceClick. rewrite Hf.
      destruct (Part000.prompt (Part000.enhancerState s)); [congruence|].
      reflexivity.
  - intros s f Hf. rewrite (part000_remove_click o s Hf).
    destruct (part000_remove_settle_keeps o
                (s |> Part000.setBgIsLoading true |> Part000.setBgError None
                   |> Part000.setBgRemovedImage None)) as (_ & H1 & _).
    unfold Part000.handleRemoveBackgroundClick at 1. rewrite H1.
    destruct s as [m e [oi fi ri il er] fv]. cbn in Hf |- *.
    now rewrite Hf.
Qed.

Lemma X4_retry_sends_same_request_witness :
  let f := mkFile "a.png" "image/png" 1 in
  let s := Index.initialApp |> Index.setImageFile (Some f)
             |> Index.setIsRestoreEnabled true in
  let o := Returned (mkResponse None (Some "I cannot do that.")) in
  Index.imageFile (Index.enhancerState s) = Some f
  /\ Index.prompt (Index.enhancerState s) <> EmptyString
  /\ snd (Index.handleEnhanceClick (Index.enhance o s))
     = snd (Index.handleEnhanceClick s).
Proof.
  intros f s o.
  assert (Hf : Index.imageFile (Index.enhancerState s) = Some f)
    by reflexivity.
  assert (Hp : Index.prompt (Index.enhancerState s) <> EmptyString)
    by discriminate.
  split; [exact Hf|]. split; [exact Hp|].
  exact (proj1 (proj1 (X4_retry_sends_same_request o) s f Hf Hp)).
Defined.

(** ** X5 *)


(** ** X6 *)

(** X6. Reset does not cancel a request: a response with an image that
    arrives after the reset, and after another file has been ingested, is
    installed as the result beside the new source image, with no error and
    the in-flight flag cleared.  Both files. *)
Theorem X6_reset_does_not_cancel (response : GenerateContentResponse)
    (f : File) (result : option string) :
  hasImage response = true ->
  JS.startsWith (type f) "image/" = true ->
  (size f <= MAX_FILE_SIZE_BYTES)%N ->
  exists blob : Blob,
    (forall s : Index.App,
       let e := Index.enhancerState
                  (Index.handleEnhanceClick_settle (Returned response)
                     (Index.ingest (Some f) result (Index.handleReset s))) in
       Index.enhancedImage e = Some (dataUrl (mimeType blob) (data blob))
       /\ Index.imageFile e = Some f
       /\ Index.originalImage e = result
       /\ Index.error e = None
       /\ Index.isLoading e = false)
    /\ (forall s : Part000.App,
          let e := Part000.enhancerState
                     (Part000.handleEnhanceClick_settle (Returned response)
                        (Part000.ingest (Some f) result
                           (Part000.handleReset s))) in
          Part000.enhancedImage e
          = Some (dataUrl (mimeType blob) (data blob))
          /\ Part000.imageFile e = Some f
          /\ Part000.originalImage e = result
          /\ Part000.error e = None
          /\ Part000.isLoading e = false).
Proof.
  intros H Ht Hs.
  assert (Hlt : (MAX_FILE_SIZE_BYTES <? size f)%N = false)
    by (apply N.ltb_ge; exact Hs).
  destruct (hasImage_parts response H) as (ps & Hps & Hex).
  destruct (first_image_split ps Hex) as (pre & blob & t & post & -> & Hpre).
  exists blob. split; intros s e; subst e.
  - rewrite (index_enhance_settle_image response pre post blob t _ Hps Hpre).
    unfold Index.ingest, Index.handleImageUpload. rewrite Ht, Hlt.
    destruct s as [k l m [oi fi ei p il er fe re de uf] rm fv].
    repeat split.
  - rewrite (part000_enhance_settle_image response pre post blob t _ Hps Hpre).
    unfold Part000.ingest, Part000.handleImageUpload. rewrite Ht, Hlt.
    destruct s as [m [oi fi ei p il er fe re uf] rm fv].
    repeat split.
Qed.

Lemma X6_reset_does_not_cancel_witness :
  let response :=
    mkResponse
      (Some [mkCandidate (Some (mkContent (Some
         [mkPart (Some (mkBlob (Some "AAAA") (Some "image/png"))) None])))])
      None in
  let f := mkFile "second.png" "image/png" 10 in
  hasImage response = true
  /\ JS.startsWith (type f) "image/" = true
  /\ (size f <= MAX_FILE_SIZE_BYTES)%N
  /\ exists blob : Blob,
       Index.enhancedImage
         (Index.enhancerState
            (Index.handleEnhanceClick_settle (Returned response)
               (Index.ingest (Some f) (Some "data:image/png;base64,BBBB")
                  (Index.handleReset Index.initialApp))))
       = Some (dataUrl (mimeType blob) (data blob)).
Proof.
  intros response f.
  assert (Hs : (size f <= MAX_FILE_SIZE_BYTES)%N) by (vm_compute; discriminate).
  split; [reflexivity|]. split; [reflexivity|]. split; [exact Hs|].
  destruct (X6_reset_does_not_cancel response f
              (Some "data:image/png;base64,BBBB") eq_refl eq_refl Hs)
    as (blob & HI & _).
  exists blob. exact (proj1 (HI Index.initialApp)).
Defined.

(** ** X7 *)

(** X7. Two uploads whose reads end in the other order leave the file of
    the second upload with the data read from the first: the image shown
    as the original is not the image that a click then sends.  Both
    files. *)
Theorem X7_reads_ending_out_of_order (a b : File) (ra rb : option string) :
  JS.startsWith (type a) "image/" = true ->
  (size a <= MAX_FILE_SIZE_BYTES)%N ->
  JS.startsWith (type b) "image/" = true ->
  (size b <= MAX_FILE_SIZE_BYTES)%N ->
  (forall s : Index.App,
     let s' := fst (Index.handleImageUpload (Some b)
                      (fst (Index.handleImageUpload (Some a) s)))
                 |> Index.handleImageUpload_onloadend rb
                 |> Index.handleImageUpload_onloadend ra in
     Index.originalImage (Index.enhancerState s') = ra
     /\ Index.imageFile (Index.enhancerState s') = Some b
     /\ option_map image (snd (Index.handleEnhanceClick s')) = Some b)
  /\ (forall s : Part000.App,
        let s' := fst (Part000.handleImageUpload (Some b)
                         (fst (Part000.handleImageUpload (Some a) s)))
                    |> Part000.handleImageUpload_onloadend rb
                    |> Part000.handleImageUpload_onloadend ra in
        Part000.originalImage (Part000.enhancerState s') = ra
        /\ Part000.imageFile (Part000.enhancerState s') = Some b
        /\ option_map image (snd (Part000.handleEnhanceClick s')) = Some b).
Proof.
  intros Hta Hsa Htb Hsb.
  assert (Hla : (MAX_FILE_SIZE_BYTES <? size a)%N = false)
    by (apply N.ltb_ge; exact Hsa).
  assert (Hlb : (MAX_FILE_SIZE_BYTES <? size b)%N = false)
    by (apply N.ltb_ge; exact Hsb).
  split; intros s s'; subst s';
    unfold Index.handleImageUpload, Part000.handleImageUpload;
    rewrite Hta, Hla, Htb, Hlb; repeat split.
Qed.

Lemma X7_reads_ending_out_of_order_witness :
  let a := mkFile "big.png" "image/png" 9000000 in
  let b := mkFile "small.png" "image/png" 100 in
  let s' := fst (Index.handleImageUpload (Some b)
                   (fst (Index.handleImageUpload (Some a) Index.initialApp)))
              |> Index.handleImageUpload_onloadend (Some "data:image/png;base64,SMALL")
              |> Index.handleImageUpload_onloadend (Some "data:image/png;base64,BIG") in
  JS.startsWith (type a) "image/" = true
  /\ (size a <= MAX_FILE_SIZE_BYTES)%N
  /\ JS.startsWith (type b) "image/" = true
  /\ (size b <= MAX_FILE_SIZE_BYTES)%N
  /\ Index.originalImage (Index.enhancerState s')
     = Some "data:image/png;base64,BIG"
  /\ option_map image (snd (Index.handleEnhanceClick s')) = Some b.
Proof.
  intros a b s'.
  assert (Hsa : (size a <= MAX_FILE_SIZE_BYTES)%N) by (vm_compute; discriminate).
  assert (Hsb : (size b <= MAX_FILE_SIZE_BYTES)%N) by (vm_compute; discriminate).
  split; [reflexivity|]. split; [exact Hsa|].
  split; [reflexivity|]. split; [exact Hsb|].
  destruct (proj1 (X7_reads_ending_out_of_order a b
                     (Some "data:image/png;base64,BIG")
                     (Some "data:image/png;base64,SMALL")
                     eq_refl Hsa eq_refl Hsb) Index.initialApp)
    as (H1 & _ & H3).
  split; [exact H1 | exact H3].
Defined.

(** ** Invariants of the runs of [index.tsx] *)

Section Runs.

Variable P : Index.App -> Prop.
Variable Q : IndexView.Event -> Prop.
Hypothesis step_keeps :
  forall s ev, Q ev -> P s -> P (IndexView.step s ev).

(** What every allowed step keeps, every run of allowed steps keeps. *)
Lemma run_keeps (events : list IndexView.Event) :
  Forall Q events -> forall s, P s -> P (IndexView.run events s).
Proof.
  unfold IndexView.run.
  induction 1 as [|ev events Hev _ IH]; intros s Hs; simpl.
  - exact Hs.
  - apply IH. now apply step_keeps.
Qed.

End Runs.

Lemma Forall_always (events : list IndexView.Event) :
  Forall (fun _ => True) events.
Proof. induction events; constructor; trivial. Qed.

(** The enhancer state after a step that is not one of the enhancer, and
    the remover state after a step that is not one of the remover. *)
Lemma step_keeps_enhancer (s : Index.App) (ev : IndexView.Event) :
  enhancerEvent ev = false ->
  Index.enhancerState (IndexView.step s ev) = Index.enhancerState s.
Proof.
  destruct ev; try discriminate; intros _; try reflexivity.
  - destruct files as [|f files]; [reflexivity|].
    cbn [IndexView.step handleFileSelect]. unfold Index.handleBgImageUpload.
    destruct (negb _); [reflexivity|]. now destruct (_ <? _)%N.
  - destruct files as [|f files]; [reflexivity|].
    cbn [IndexView.step handleDrop snd]. unfold Index.handleBgImageUpload.
    destruct (negb _); [reflexivity|]. now destruct (_ <? _)%N.
  - cbn [IndexView.step]. unfold Index.handleRemoveBackgroundClick.
    now destruct (Index.bgImageFile _).
  - apply index_remove_settle_keeps.
Qed.

Lemma step_keeps_remover (s : Index.App) (ev : IndexView.Event) :
  removerEvent ev = false ->
  Index.removerState (IndexView.step s ev) = Index.removerState s.
Proof.
  destruct ev; try discriminate; intros _; try reflexivity.
  - destruct files as [|f files]; [reflexivity|].
    cbn [IndexView.step handleFileSelect]. unfold Index.handleImageUpload.
    destruct (negb _); [reflexivity|]. now destruct (_ <? _)%N.
  - destruct files as [|f files]; [reflexivity|].
    cbn [IndexView.step handleDrop snd]. unfold Index.handleImageUpload.
    destruct (negb _); [reflexivity|]. now destruct (_ <? _)%N.
  - now destruct c.
  - cbn [IndexView.step]. unfold Index.handleEnhanceClick.
    destruct (Index.imageFile _); [|reflexivity]. now destruct (JS.falsy _).
  - apply index_enhance_settle_keeps.
Qed.

Lemma step_error_form (s : Index.App) (ev : IndexView.Event) :
  IndexView.enhancerErrorForm (Index.error (Index.enhancerState s)) ->
  IndexView.enhancerErrorForm
    (Index.error (Index.enhancerState (IndexView.step s ev))).
Proof.
  intros H. destruct (enhancerEvent ev) eqn:E;
    [|now rewrite step_keeps_enhancer].
  assert (Hupload : forall f,
            IndexView.enhancerErrorForm
              (Index.error (Index.enhancerState
                              (fst (Index.handleImageUpload (Some f) s))))).
  { intros f. unfold Index.handleImageUpload.
    destruct (negb _); [|destruct (_ <? _)%N];
      destruct s as [k l m [oi fi ei p il er fe re de uf] rm fv];
      cbn in H |- *; unfold IndexView.enhancerErrorForm; auto. }
  destruct ev; try discriminate; cbn [IndexView.step].
  - destruct files as [|f files]; [exact H | apply Hupload].
  - destruct files as [|f files]; [exact H | apply Hupload].
  - now left.
  - destruct c; destruct s as [k l m [oi fi ei p il er fe re de uf] rm fv];
      exact H.
  - unfold Index.handleEnhanceClick.
    destruct (Index.imageFile _); [|exact H].
    destruct (JS.falsy _); [exact H | now left].
  - destruct (index_enhance_settle_shape o s) as [(b & ->)|[->|(msg & ->)]];
      destruct s as [k l m [oi fi ei p il er fe re de uf] rm fv];
      cbn in H |- *; unfold IndexView.enhancerErrorForm.
    + exact H.
    + auto.
    + right; right; right; right. now exists msg.
  - now left.
Qed.

Lemma step_bgError_form (s : Index.App) (ev : IndexView.Event) :
  IndexView.removerErrorForm (Index.bgError (Index.removerState s)) ->
  IndexView.removerErrorForm
    (Index.bgError (Index.removerState (IndexView.step s ev))).
Proof.
  intros H. destruct (removerEvent ev) eqn:E;
    [|now rewrite step_keeps_remover].
  assert (Hupload : forall f,
            IndexView.removerErrorForm
              (Index.bgError (Index.removerState
                                (fst (Index.handleBgImageUpload (Some f) s))))).
  { intros f. unfold Index.handleBgImageUpload.
    destruct (negb _); [|destruct (_ <? _)%N];
      destruct s as [k l m e [oi fi ri il er] fv];
      cbn in H |- *; unfold IndexView.removerErrorForm; auto. }
  destruct ev; try discriminate; cbn [IndexView.step].
  - destruct files as [|f files]; [exact H | apply Hupload].
  - destruct files as [|f files]; [exact H | apply Hupload].
  - now left.
  - unfold Index.handleRemoveBackgroundClick.
    destruct (Index.bgImageFile _); [now left | exact H].
  - destruct (index_remove_settle_shape o s) as [(b & ->)|[->|(msg & ->)]];
      destruct s as [k l m e [oi fi ri il er] fv];
      cbn in H |- *; unfold IndexView.removerErrorForm.
    + exact H.
    + auto.
    + right; right; right; right. now exists msg.
  - now left.
Qed.

(** ** X8 *)

(** X8. Whatever the user does and however reads and requests end, the
    error cell of the enhancer of [index.tsx] is empty or holds the
    invalid-type text, the size text, the credential text or a text that
    starts with [An error occurred during enhancement: ], and the error
    cell of the remover likewise with [An error occurred: ]. *)
Theorem X8_error_texts (events : list IndexView.Event) :
  let s := IndexView.run events Index.initialApp in
  IndexView.enhancerErrorForm (Index.error (Index.enhancerState s))
  /\ IndexView.removerErrorForm (Index.bgError (Index.removerState s)).
Proof.
  intros s. subst s. split.
  - apply (@run_keeps
             (fun s => IndexView.enhancerErrorForm
                         (Index.error (Index.enhancerState s)))
             (fun _ => True)).
    + intros s ev _. apply step_error_form.
    + apply Forall_always.
    + now left.
  - apply (@run_keeps
             (fun s => IndexView.removerErrorForm
                         (Index.bgError (Index.removerState s)))
             (fun _ => True)).
    + intros s ev _. apply step_bgError_form.
    + apply Forall_always.
    + now left.
Qed.

Lemma step_result_form (s : Index.App) (ev : IndexView.Event) :
  dataUrlForm (Index.enhancedImage (Index.enhancerState s)) ->
  dataUrlForm (Index.enhancedImage (Index.enhancerState (IndexView.step s ev))).
Proof.
  intros H. destruct (enhancerEvent ev) eqn:E;
    [|now rewrite step_keeps_enhancer].
  assert (Hupload : forall f,
            dataUrlForm
              (Index.enhancedImage
                 (Index.enhancerState
                    (fst (Index.handleImageUpload (Some f) s))))).
  { intros f. unfold Index.handleImageUpload.
    destruct (negb _); [|destruct (_ <? _)%N];
      destruct s as [k l m [oi fi ei p il er fe re de uf] rm fv];
      exact H. }
  destruct ev; try discriminate; cbn [IndexView.step].
  - destruct files as [|f files]; [exact H | apply Hupload].
  - destruct files as [|f files]; [exact H | apply Hupload].
  - now left.
  - destruct c; destruct s as [k l m [oi fi ei p il er fe re de uf] rm fv];
      exact H.
  - unfold Index.handleEnhanceClick.
    destruct (Index.imageFile _); [|exact H].
    destruct (JS.falsy _); [exact H | now left].
  - destruct (index_enhance_settle_shape o s) as [(b & ->)|[->|(msg & ->)]];
      destruct s as [k l m [oi fi ei p il er fe re de uf] rm fv];
      try exact H.
    right. now exists (JS.interp (mimeType b)), (JS.interp (data b)).
  - now left.
Qed.

Lemma step_bgResult_form (s : Index.App) (ev : IndexView.Event) :
  pngUrlForm (Index.bgRemovedImage (Index.removerState s)) ->
  pngUrlForm
    (Index.bgRemovedImage (Index.removerState (IndexView.step s ev))).
Proof.
  intros H. destruct (removerEvent ev) eqn:E;
    [|now rewrite step_keeps_remover].
  assert (Hupload : forall f,
            pngUrlForm
              (Index.bgRemovedImage
                 (Index.removerState
                    (fst (Index.handleBgImageUpload (Some f) s))))).
  { intros f. unfold Index.handleBgImageUpload.
    destruct (negb _); [|destruct (_ <? _)%N];
      destruct s as [k l m e [oi fi ri il er] fv];
      exact H. }
  destruct ev; try discriminate; cbn [IndexView.step].
  - destruct files as [|f files]; [exact H | apply Hupload].
  - destruct files as [|f files]; [exact H | apply Hupload].
  - now left.
  - unfold Index.handleRemoveBackgroundClick.
    destruct (Index.bgImageFile _); [now left | exact H].
  - destruct (index_remove_settle_shape o s) as [(b & ->)|[->|(msg & ->)]];
      destruct s as [k l m e [oi fi ri il er] fv];
      try exact H.
    right. now exists (JS.interp (data b)).
  - now left.
Qed.

(** ** X9 *)

(** X9. Whatever the user does and however reads and requests end, the
    result cell of the enhancer of [index.tsx] is empty or a data URL of
    the form data:TYPE;base64,DATA, and the result cell of the remover is
    empty or a data URL of type image/png; so the download links, which
    have these cells as target, never point anywhere else. *)
Theorem X9_result_urls (events : list IndexView.Event) :
  let s := IndexView.run events Index.initialApp in
  dataUrlForm (Index.enhancedImage (Index.enhancerState s))
  /\ pngUrlForm (Index.bgRemovedImage (Index.removerState s)).
Proof.
  intros s. subst s. split.
  - apply (@run_keeps
             (fun s => dataUrlForm
                         (Index.enhancedImage (Index.enhancerState s)))
             (fun _ => True)).
    + intros s ev _. apply step_result_form.
    + apply Forall_always.
    + now left.
  - apply (@run_keeps
             (fun s => pngUrlForm
                         (Index.bgRemovedImage (Index.removerState s)))
             (fun _ => True)).
    + intros s ev _. apply step_bgResult_form.
    + apply Forall_always.
    + now left.
Qed.

(** ** X10 *)

Lemma step_upscale_offered (s : Index.App) (ev : IndexView.Event) :
  IndexView.offered ev = true ->
  In (Index.upscaleFactor (Index.enhancerState s)) Index.upscaleOptions ->
  In (Index.upscaleFactor (Index.enhancerState (IndexView.step s ev)))
     Index.upscaleOptions.
Proof.
  intros Hoff H. destruct (enhancerEvent ev) eqn:E;
    [|now rewrite step_keeps_enhancer].
  assert (Hupload : forall f,
            Index.upscaleFactor
              (Index.enhancerState (fst (Index.handleImageUpload (Some f) s)))
            = Index.upscaleFactor (Index.enhancerState s)).
  { intros f. unfold Index.handleImageUpload.
    destruct (negb _); [|destruct (_ <? _)%N];
      now destruct s as [k l m [] rm fv]. }
  destruct ev; try discriminate; cbn [IndexView.step].
  - destruct files as [|f files]; [exact H|].
    cbn [handleFileSelect]. now rewrite Hupload.
  - destruct files as [|f files]; [exact H|].
    cbn [handleDrop snd]. now rewrite Hupload.
  - simpl. now left.
  - destruct c; try (destruct s as [k l m [] rm fv]; exact H).
    cbn [IndexView.offered] in Hoff.
    apply existsb_exists in Hoff as (x & Hx & Heq).
    apply String.eqb_eq in Heq. subst x.
    now destruct s as [k l m [] rm fv].
  - unfold Index.handleEnhanceClick.
    destruct (Index.imageFile _); [|exact H].
    destruct (JS.falsy _); [exact H|].
    now destruct s as [k l m [] rm fv].
  - destruct (index_enhance_settle_keeps o s) as (_ & _ & _ & -> & _).
    exact H.
  - simpl. now left.
Qed.

(** X10. As long as the upscale factor is set with the buttons that the
    editor of [index.tsx] offers, the factor is always one of none, 2x, 4x,
    8x, 16x, 32x, whatever else happens, and exactly one of the six upscale
    buttons is shown pressed. *)
Theorem X10_one_upscale_button_pressed (events : list IndexView.Event) :
  forallb IndexView.offered events = true ->
  let s := IndexView.run events Index.initialApp in
  In (Index.upscaleFactor (Index.enhancerState s)) Index.upscaleOptions
  /\ List.length (filter snd (IndexView.upscaleButtons s)) = 1%nat.
Proof.
  intros Hoff s.
  assert (Hin : In (Index.upscaleFactor (Index.enhancerState s))
                   Index.upscaleOptions).
  { subst s.
    apply (@run_keeps
             (fun s => In (Index.upscaleFactor (Index.enhancerState s))
                          Index.upscaleOptions)
             (fun ev => IndexView.offered ev = true)).
    - intros s ev. apply step_upscale_offered.
    - apply Forall_forall. intros ev Hev.
      rewrite forallb_forall in Hoff. now apply Hoff.
    - simpl. now left. }
  split; [exact Hin|].
  unfold IndexView.upscaleButtons.
  simpl in Hin.
  destruct Hin as [<-|[<-|[<-|[<-|[<-|[<-|[]]]]]]]; reflexivity.
Qed.

Lemma X10_one_upscale_button_pressed_witness :
  let events :=
    [IndexView.ApiKeyChecked true; IndexView.GetStarted;
     IndexView.FilesDropped [mkFile "a.png" "image/png" 1];
     IndexView.ReadEnded (Some "data:image/png;base64,AAAA");
     IndexView.ControlUsed (Index.UpscaleButton "8x");
     IndexView.ControlUsed (Index.DeblurImageToggle true);
     IndexView.ControlUsed (Index.UpscaleButton "2x");
     IndexView.EnhanceClicked] in
  forallb IndexView.offered events = true
  /\ IndexView.upscaleButtons (IndexView.run events Index.initialApp)
     = [("None", false); ("2x", true); ("4x", false); ("8x", false);
        ("16x", false); ("32x", false)]
  /\ List.length
       (filter snd
          (IndexView.upscaleButtons (IndexView.run events Index.initialApp)))
     = 1%nat.
Proof.
  intros events. split; [reflexivity|]. split; [reflexivity|].
  exact (proj2 (X10_one_upscale_button_pressed events eq_refl)).
Defined.

(** ** X11 *)

Lemma commaFree_cons (c : ascii) (s : string) :
  JS.includes (String c s) "," = Ascii.eqb c "," || JS.includes s ",".
Proof.
  cbn [JS.includes JS.startsWith]. rewrite andb_true_r.
  now rewrite Ascii.eqb_sym.
Qed.

Lemma commaFree_app (a b : string) :
  commaFree a -> commaFree b -> commaFree (a ++ b).
Proof.
  unfold commaFree. induction a as [|c a IH]; intros Ha Hb; [exact Hb|].
  cbn [append]. rewrite commaFree_cons in Ha |- *.
  apply orb_false_iff in Ha as [Hc Ha]. rewrite Hc. now apply IH.
Qed.

Lemma split_commaFree (s : string) :
  commaFree s -> split "," s = [s].
Proof.
  unfold commaFree. induction s as [|c s IH]; intros H; [reflexivity|].
  rewrite commaFree_cons in H. apply orb_false_iff in H as [Hc Hs].
  cbn [split]. rewrite Hc, (IH Hs). reflexivity.
Qed.

Lemma split_at_comma (a b : string) :
  commaFree a -> split "," (a ++ String "," b) = a :: split "," b.
Proof.
  unfold commaFree. induction a as [|c a IH]; intros H.
  - reflexivity.
  - rewrite commaFree_cons in H. apply orb_false_iff in H as [Hc Ha].
    cbn [append split]. rewrite Hc, (IH Ha). reflexivity.
Qed.

(** X11. [fileToGenerativePart] sends as data the text between the first
    and the second comma of what the reader read, and as media type the
    type of the file: for a result of the form HEADER,PAYLOAD it is the
    payload, also when more commas follow; when the result has no comma
    the data is [undefined]; when the reader has no result the promise
    never resolves.  In particular it gives back the base64 part of every
    data URL that the handlers build themselves. *)
Theorem X11_fileToGenerativePart (file : File) :
  fileToGenerativePart file None = None
  /\ (forall result,
        commaFree result ->
        fileToGenerativePart file (Some result)
        = Some {| data := None; mimeType := Some (type file) |})
  /\ (forall header payload,
        commaFree header -> commaFree payload ->
        fileToGenerativePart file (Some (header ++ "," ++ payload))
        = Some {| data := Some payload; mimeType := Some (type file) |})
  /\ (forall header payload rest,
        commaFree header -> commaFree payload ->
        fileToGenerativePart file
          (Some (header ++ "," ++ payload ++ "," ++ rest))
        = Some {| data := Some payload; mimeType := Some (type file) |})
  /\ (forall mime base64,
        commaFree mime -> commaFree base64 ->
        fileToGenerativePart file (Some (dataUrl (Some mime) (Some base64)))
        = Some {| data := Some base64; mimeType := Some (type file) |}).
Proof.
  assert (Hone : forall header payload,
            commaFree header -> commaFree payload ->
            fileToGenerativePart file (Some (header ++ "," ++ payload))
            = Some {| data := Some payload; mimeType := Some (type file) |}).
  { intros header payload Hh Hp. unfold fileToGenerativePart.
    change ("," ++ payload) with (String "," payload).
    now rewrite (split_at_comma payload Hh), (split_commaFree Hp). }
  split; [reflexivity|]. split; [|split; [exact Hone|split]].
  - intros result H. unfold fileToGenerativePart.
    now rewrite (split_commaFree H).
  - intros header payload rest Hh Hp. unfold fileToGenerativePart.
    change ("," ++ payload ++ "," ++ rest)
      with (String "," (payload ++ String "," rest)).
    now rewrite (split_at_comma _ Hh), (split_at_comma rest Hp).
  - intros mime base64 Hm Hb. unfold dataUrl. cbn [JS.interp].
    replace ("data:" ++ mime ++ ";base64," ++ base64)
      with (("data:" ++ mime ++ ";base64") ++ "," ++ base64).
    + apply Hone; [|exact Hb].
      apply (commaFree_app (a := "data:")); [reflexivity|].
      apply commaFree_app; [exact Hm | reflexivity].
    + rewrite !append_assoc. reflexivity.
Qed.

Lemma X11_fileToGenerativePart_witness :
  let file := mkFile "a.jpg" "image/jpeg" 3 in
  commaFree "data:image/jpeg;base64"
  /\ commaFree "/9j/4AAQ"
  /\ fileToGenerativePart file (Some "data:image/jpeg;base64,/9j/4AAQ")
     = Some {| data := Some "/9j/4AAQ"; mimeType := Some "image/jpeg" |}.
Proof.
  intros file.
  assert (Hh : commaFree "data:image/jpeg;base64") by reflexivity.
  assert (Hp : commaFree "/9j/4AAQ") by reflexivity.
  split; [exact Hh|]. split; [exact Hp|].
  destruct (X11_fileToGenerativePart file) as (_ & _ & Hone & _).
  exact (Hone _ _ Hh Hp).
Defined.

(** ** X12 *)

(** X12. In [index.tsx], a credential error of either request handler puts
    the key selection screen in place of whatever was shown; selecting a
    key brings that screen back, with the source image, the prompt, the
    toggles and the other pipeline as they were, and a click then sends the
    request that had failed. *)
Theorem X12_key_selection_recovers (e : Thrown) (s : Index.App) :
  Index.isCredentialError (Index.errorMessage e) = true ->
  Index.apiKeyReady s = true ->
  (let failed := Index.handleEnhanceClick_settle (Threw e) s in
   let back := IndexView.handleSelectKey failed in
   Index.render failed = Index.ApiKeySelector
   /\ Index.render back = Index.render s
   /\ back = s |> Index.setError (Some Index.credentialText)
               |> Index.setIsLoading false
   /\ snd (Index.handleEnhanceClick back) = snd (Index.handleEnhanceClick s))
  /\ (let failed := Index.handleRemoveBackgroundClick_settle (Threw e) s in
      let back := IndexView.handleSelectKey failed in
      Index.render failed = Index.ApiKeySelector
      /\ Index.render back = Index.render s
      /\ back = s |> Index.setBgError (Some Index.credentialText)
                  |> Index.setBgIsLoading false
      /\ snd (Index.handleRemoveBackgroundClick back)
         = snd (Index.handleRemoveBackgroundClick s)).
Proof.
  intros Hc Hk.
  unfold Index.handleEnhanceClick_settle, Index.handleEnhanceClick_catch,
    Index.handleRemoveBackgroundClick_settle,
    Index.handleRemoveBackgroundClick_catch.
  rewrite Hc.
  destruct s as [k l m [oi fi ei p il er fe re de uf] [boi bfi bri bil ber] fv].
  cbn in Hk. subst k.
  split; cbv zeta; (split; [reflexivity|]); (split; [reflexivity|]);
    (split; [reflexivity|]).
  - apply index_request_depends; reflexivity.
  - unfold Index.handleRemoveBackgroundClick. cbn.
    destruct bfi; reflexivity.
Qed.

Lemma X12_key_selection_recovers_witness :
  let e := newError "Requested entity was not found." in
  let s := Index.initialApp
             |> Index.setApiKeyReady true
             |> IndexView.setShowLanding false
             |> Index.setImageFile (Some (mkFile "a.png" "image/png" 1)) in
  Index.isCredentialError (Index.errorMessage e) = true
  /\ Index.apiKeyReady s = true
  /\ Index.render (Index.handleEnhanceClick_settle (Threw e) s)
     = Index.ApiKeySelector
  /\ Index.render
       (IndexView.handleSelectKey (Index.handleEnhanceClick_settle (Threw e) s))
     = Index.Main.
Proof.
  intros e s. split; [reflexivity|]. split; [reflexivity|].
  destruct (proj1 (X12_key_selection_recovers e s eq_refl eq_refl))
    as (H1 & H2 & _).
  split; [exact H1 | exact H2].
Defined.

(** ** X13 *)

Lemma enabled_prompt (s : Index.App) :
  IndexView.enhanceDisabled s = false ->
  Index.isLoading (Index.enhancerState s) = false
  /\ JS.falsy (JS.trim (Index.prompt (Index.enhancerState s))) = false
  /\ Index.prompt (Index.enhancerState s) <> EmptyString.
Proof.
  unfold IndexView.enhanceDisabled. intros H.
  apply orb_false_iff in H as [Hl Hp]. repeat split; try assumption.
  intros E. rewrite E in Hp. discriminate.
Qed.

(** X13. In [index.tsx], when a file is stored and the enhance button is
    enabled, a click sends a request and disables the button, and the
    button is enabled again as soon as the call settles, whatever its
    outcome; the remove button behaves in the same way.  So a button
    starts no second request while its own is in flight. *)
Theorem X13_button_cycle (s : Index.App) (f : File) :
  (Index.imageFile (Index.enhancerState s) = Some f ->
   IndexView.enhanceDisabled s = false ->
   let s1 := fst (Index.handleEnhanceClick s) in
   snd (Index.handleEnhanceClick s) <> None
   /\ IndexView.enhanceDisabled s1 = true
   /\ forall o,
        IndexView.enhanceDisabled (Index.handleEnhanceClick_settle o s1)
        = false)
  /\ (Index.bgImageFile (Index.removerState s) = Some f ->
      IndexView.removeDisabled s = false ->
      let s1 := fst (Index.handleRemoveBackgroundClick s) in
      snd (Index.handleRemoveBackgroundClick s) <> None
      /\ IndexView.removeDisabled s1 = true
      /\ forall o,
           IndexView.removeDisabled
             (Index.handleRemoveBackgroundClick_settle o s1)
           = false).
Proof.
  split.
  - intros Hf Hen s1. subst s1.
    destruct (enabled_prompt s Hen) as (Hl & Ht & Hp).
    unfold Index.handleEnhanceClick. rewrite Hf.
    destruct (Index.prompt (Index.enhancerState s)) eqn:E; [congruence|].
    cbn [JS.falsy fst snd]. split; [discriminate|]. split.
    + now destruct s as [k l m [] rm fv].
    + intros o. unfold IndexView.enhanceDisabled.
      destruct (index_enhance_settle_shape o
                  (s |> Index.setIsLoading true |> Index.setError None
                     |> Index.setEnhancedImage None))
        as [(b & ->)|[->|(msg & ->)]];
        destruct s as [k l m [oi fi ei p il er fe re de uf] rm fv];
        cbn in E, Ht |- *; subst p; exact Ht.
  - intros Hf Hen s1. subst s1.
    unfold Index.handleRemoveBackgroundClick. rewrite Hf.
    cbn [fst snd]. split; [discriminate|]. split.
    + now destruct s as [k l m e [] fv].
    + intros o. unfold IndexView.removeDisabled.
      destruct (index_remove_settle_shape o
                  (s |> Index.setBgIsLoading true |> Index.setBgError None
                     |> Index.setBgRemovedImage None))
        as [(b & ->)|[->|(msg & ->)]];
        now destruct s as [k l m e [] fv].
Qed.

Lemma X13_button_cycle_witness :
  let f := mkFile "a.png" "image/png" 1 in
  let s := Index.initialApp |> Index.setImageFile (Some f) in
  Index.imageFile (Index.enhancerState s) = Some f
  /\ IndexView.enhanceDisabled s = false
  /\ IndexView.enhanceDisabled (fst (Index.handleEnhanceClick s)) = true
  /\ Index.bgImageFile
       (Index.removerState (Index.initialApp |> Index.setBgImageFile (Some f)))
     = Some f
  /\ IndexView.removeDisabled
       (Index.initialApp |> Index.setBgImageFile (Some f)) = false
  /\ IndexView.removeDisabled
       (fst (Index.handleRemoveBackgroundClick
               (Index.initialApp |> Index.setBgImageFile (Some f)))) = true.
Proof.
  intros f s.
  assert (He : IndexView.enhanceDisabled s = false) by (vm_compute; reflexivity).
  split; [reflexivity|]. split; [exact He|]. split.
  - exact (proj1 (proj2 (proj1 (X13_button_cycle s f) eq_refl He))).
  - split; [reflexivity|]. split; [reflexivity|].
    exact (proj1 (proj2 (proj2 (X13_button_cycle
                                  (Index.initialApp
                                     |> Index.setBgImageFile (Some f)) f)
                           eq_refl eq_refl))).
Defined.

(** ** X14 *)

Lemma dropWs_blank (fwd : bool) (l : list ascii) :
  forallb JS.ws1 l = true -> JS.dropWs fwd l = [].
Proof.
  induction l as [|c l IH]; intros H; [reflexivity|].
  simpl in H. apply andb_true_iff in H as [Hc Hl].
  cbn [JS.dropWs]. rewrite Hc. now apply IH.
Qed.

(** X14. In [index.tsx], a prompt made only of spaces, tabs and line
    breaks disables the enhance button, although the handler, whose guard
    tests the untrimmed prompt, would send it: for such a prompt that is
    not empty a call of the handler sends a request with the blank prompt
    as the start of the instruction. *)
Theorem X14_blank_prompt (s : Index.App) (f : File) :
  Index.imageFile (Index.enhancerState s) = Some f ->
  Index.prompt (Index.enhancerState s) <> EmptyString ->
  forallb JS.ws1
    (list_ascii_of_string (Index.prompt (Index.enhancerState s))) = true ->
  IndexView.enhanceDisabled s = true
  /\ snd (Index.handleEnhanceClick s)
     = Some {| model := "gemini-2.5-flash-image"; image := f;
               instruction := Index.finalPrompt (Index.enhancerState s) |}
  /\ JS.startsWith (Index.finalPrompt (Index.enhancerState s))
       (Index.prompt (Index.enhancerState s)) = true.
Proof.
  intros Hf Hp Hb. split; [|split].
  - unfold IndexView.enhanceDisabled, JS.trim.
    rewrite (dropWs_blank true _ Hb). apply orb_true_r.
  - unfold Index.handleEnhanceClick. rewrite Hf.
    destruct (Index.prompt (Index.enhancerState s)); [congruence|].
    reflexivity.
  - rewrite finalPrompt_composite. unfold compositePrompt.
    apply startsWith_app.
Qed.

Lemma X14_blank_prompt_witness :
  let f := mkFile "a.png" "image/png" 1 in
  let s := Index.initialApp |> Index.setImageFile (Some f)
             |> Index.setPrompt "   " in
  Index.imageFile (Index.enhancerState s) = Some f
  /\ Index.prompt (Index.enhancerState s) <> EmptyString
  /\ forallb JS.ws1
       (list_ascii_of_string (Index.prompt (Index.enhancerState s))) = true
  /\ IndexView.enhanceDisabled s = true
  /\ option_map instruction (snd (Index.handleEnhanceClick s)) = Some "   ".
Proof.
  intros f s.
  assert (Hp : Index.prompt (Index.enhancerState s) <> EmptyString)
    by discriminate.
  split; [reflexivity|]. split; [exact Hp|]. split; [reflexivity|].
  destruct (X14_blank_prompt s eq_refl Hp eq_refl) as (H1 & H2 & _).
  split; [exact H1|]. rewrite H2. reflexivity.
Defined.

(** ** X15 *)

(** X15. In [index.tsx] the enhancer shows the upload area after every
    reset and the editor after every ingestion whose read gave a non-empty
    result; when the read gave nothing the upload area stays although the
    file is stored, and a rejected file changes neither the view nor the
    stored file. *)
Theorem X15_which_view (s : Index.App) (f : File) :
  IndexView.enhancerView (Index.handleReset s) = IndexView.UploadArea
  /\ (JS.startsWith (type f) "image/" = true ->
      (size f <= MAX_FILE_SIZE_BYTES)%N ->
      (forall url, url <> EmptyString ->
         IndexView.enhancerView (Index.ingest (Some f) (Some url) s)
         = IndexView.EditorArea)
      /\ IndexView.enhancerView (Index.ingest (Some f) None s)
         = IndexView.UploadArea
      /\ Index.imageFile (Index.enhancerState (Index.ingest (Some f) None s))
         = Some f)
  /\ (JS.startsWith (type f) "image/" = false
      \/ (MAX_FILE_SIZE_BYTES < size f)%N ->
      forall result,
        IndexView.enhancerView (Index.ingest (Some f) result s)
        = IndexView.enhancerView s
        /\ Index.imageFile
             (Index.enhancerState (Index.ingest (Some f) result s))
           = Index.imageFile (Index.enhancerState s)).
Proof.
  split; [reflexivity|]. split.
  - intros Ht Hs.
    assert (Hlt : (MAX_FILE_SIZE_BYTES <? size f)%N = false)
      by (apply N.ltb_ge; exact Hs).
    unfold Index.ingest, Index.handleImageUpload. rewrite Ht, Hlt.
    cbn [negb]. split; [|split; reflexivity].
    intros url Hurl. unfold IndexView.enhancerView.
    destruct s as [k l m [] rm fv]. cbn.
    destruct url; [congruence | reflexivity].
  - intros H result. unfold Index.ingest, Index.handleImageUpload.
    destruct (JS.startsWith (type f) "image/") eqn:Ht; cbn [negb].
    + destruct H as [H|H]; [discriminate|].
      apply N.ltb_lt in H. rewrite H.
      now destruct s as [k l m [] rm fv].
    + now destruct s as [k l m [] rm fv].
Qed.

Lemma X15_which_view_witness :
  let f := mkFile "a.png" "image/png" 1 in
  let pdf := mkFile "a.pdf" "application/pdf" 1 in
  JS.startsWith (type f) "image/" = true
  /\ (size f <= MAX_FILE_SIZE_BYTES)%N
  /\ IndexView.enhancerView
       (Index.ingest (Some f) (Some "data:image/png;base64,AAAA")
          Index.initialApp)
     = IndexView.EditorArea
  /\ JS.startsWith (type pdf) "image/" = false
  /\ IndexView.enhancerView
       (Index.ingest (Some pdf) (Some "data:application/pdf;base64,AAAA")
          Index.initialApp)
     = IndexView.UploadArea.
Proof.
  intros f pdf.
  assert (Hs : (size f <= MAX_FILE_SIZE_BYTES)%N) by (vm_compute; discriminate).
  split; [reflexivity|]. split; [exact Hs|]. split.
  - destruct (X15_which_view Index.initialApp f) as (_ & Hok & _).
    apply (proj1 (Hok eq_refl Hs)). discriminate.
  - split; [reflexivity|].
    destruct (X15_which_view Index.initialApp pdf) as (_ & _ & Hbad).
    rewrite (proj1 (Hbad (or_introl eq_refl) _)). reflexivity.
Defined.

(** ** X16 *)

Lemma step_showLanding (s : Index.App) (ev : IndexView.Event) :
  Index.showLanding s = false ->
  Index.showLanding (IndexView.step s ev) = false.
Proof.
  intros H. destruct ev; cbn [IndexView.step].
  - exact H.
  - exact H.
  - reflexivity.
  - exact H.
  - destruct files as [|f files]; [exact H|].
    cbn [handleFileSelect]. unfold Index.handleImageUpload.
    destruct (negb _); [exact H|]. now destruct (_ <? _)%N.
  - destruct files as [|f files]; [exact H|].
    cbn [handleDrop snd]. unfold Index.handleImageUpload.
    destruct (negb _); [exact H|]. now destruct (_ <? _)%N.
  - exact H.
  - now destruct c.
  - unfold Index.handleEnhanceClick.
    destruct (Index.imageFile _); [|exact H]. now destruct (JS.falsy _).
  - destruct (index_enhance_settle_shape o s) as [(b & ->)|[->|(msg & ->)]];
      exact H.
  - exact H.
  - destruct files as [|f files]; [exact H|].
    cbn [handleFileSelect]. unfold Index.handleBgImageUpload.
    destruct (negb _); [exact H|]. now destruct (_ <? _)%N.
  - destruct files as [|f files]; [exact H|].
    cbn [handleDrop snd]. unfold Index.handleBgImageUpload.
    destruct (negb _); [exact H|]. now destruct (_ <? _)%N.
  - exact H.
  - unfold Index.handleRemoveBackgroundClick.
    now destruct (Index.bgImageFile _).
  - destruct (index_remove_settle_shape o s) as [(b & ->)|[->|(msg & ->)]];
      exact H.
  - exact H.
Qed.

(** X16. In [index.tsx], once the landing page has been left it is never
    shown again, whatever happens afterwards: after every run of events the
    application shows the key selection screen or the main view, and the
    main view exactly when the key is marked ready.  A credential failure
    followed by the selection of a key therefore leads back to the main
    view, not to the landing page. *)
Theorem X16_landing_page_left_for_good (events : list IndexView.Event)
    (s : Index.App) :
  Index.showLanding s = false ->
  let s' := IndexView.run events s in
  Index.showLanding s' = false
  /\ Index.render s' <> Index.LandingPage
  /\ (Index.render s' = Index.Main <-> Index.apiKeyReady s' = true).
Proof.
  intros H s'.
  assert (Hs' : Index.showLanding s' = false).
  { subst s'.
    apply (@run_keeps (fun s => Index.showLanding s = false)
             (fun _ => True)).
    - intros s0 ev _. apply step_showLanding.
    - apply Forall_always.
    - exact H. }
  split; [exact Hs'|]. unfold Index.render. rewrite Hs'.
  destruct (Index.apiKeyReady s'); cbn; repeat split;
    (discriminate || reflexivity || (intros; discriminate) || idtac).
Qed.

Lemma X16_landing_page_left_for_good_witness :
  let s := Index.initialApp |> IndexView.checkApiKey true
             |> IndexView.onGetStarted
             |> Index.setImageFile (Some (mkFile "a.png" "image/png" 1)) in
  let events :=
    [IndexView.EnhanceClicked;
     IndexView.EnhanceSettled (Threw (newError "API Key must be set"));
     IndexView.KeySelected] in
  Index.showLanding s = false
  /\ Index.render (IndexView.run [IndexView.EnhanceClicked;
                                   IndexView.EnhanceSettled
                                     (Threw (newError "API Key must be set"))] s)
     = Index.ApiKeySelector
  /\ Index.render (IndexView.run events s) <> Index.LandingPage
  /\ Index.render (IndexView.run events s) = Index.Main.
Proof.
  intros s events. split; [reflexivity|]. split; [reflexivity|].
  destruct (X16_landing_page_left_for_good events s eq_refl)
    as (_ & Hnot & Hmain).
  split; [exact Hnot|]. apply Hmain. reflexivity.
Defined.
